(** * fuelrun: the [FuelPriceUpdate] pipeline of [fuelrun/update_price.py]

    A shallow embedding of the class [FuelPriceUpdate]: every method is a
    computation in a small state-and-exception monad over a state made of
    the object ([self]) and of the world the script touches (the working
    directory, standard output, the clock and the HTTP server).

    The libraries the script calls (requests, pandas, os) are described by
    the definitions of the first half, each with the behaviour the methods
    rely on; the methods themselves follow the source statement by
    statement. *)

From Stdlib Require Import List String Ascii ZArith Bool Lia Arith.
From Stdlib Require Import DecimalString Sorted OrdersEx RelationClasses.
Import ListNotations.
Local Open Scope string_scope.
Local Open Scope list_scope.
Set Warnings "-register-all".

(* ================================================================== *)
(** * Python values *)
(* ================================================================== *)

(** The exceptions the script can meet. [OtherError] carries the class
    name of an exception raised inside a library (a connection error of
    requests, for instance). [Unmodelled] marks the few library corners
    this development does not describe (named where they occur): pandas
    may succeed or raise there, and no result below is about them. *)
Inductive exn : Type :=
| AttributeError | KeyError | TypeError | ValueError | IndexError
| OverflowError | FileNotFoundError | FileExistsError
| NotADirectoryError | IsADirectoryError | EmptyDataError
| OtherError (name : string)
| Unmodelled.

Inductive outcome (A : Type) : Type :=
| Ok (a : A)
| Raise (e : exn).
Arguments Ok {A} a.
Arguments Raise {A} e.

(** What [json.loads] builds, which is also what a DataFrame cell holds.
    [JNull] is [None] (and the missing value NaN of pandas); a dict keeps
    its insertion order; a float is kept as the text Python prints for it
    (its [repr]), and no floating-point arithmetic is done on it. *)
Inductive json : Type :=
| JNull
| JBool (b : bool)
| JInt (z : Z)
| JFloat (lit : string)
| JStr (s : string)
| JArr (items : list json)
| JObj (members : list (string * json)).

(** ** Association lists: Python dicts in insertion order *)

Fixpoint assoc {A : Type} (k : string) (l : list (string * A)) : option A :=
  match l with
  | [] => None
  | (k', v) :: l' => if String.eqb k k' then Some v else assoc k l'
  end.

(** [d[k] = v]: replaces the value in place, or appends a new key. *)
Fixpoint assoc_set {A : Type} (k : string) (v : A) (l : list (string * A))
  : list (string * A) :=
  match l with
  | [] => [(k, v)]
  | (k', v') :: l' =>
      if String.eqb k k' then (k, v) :: l' else (k', v') :: assoc_set k v l'
  end.

(** ** [str] and [repr] *)

Definition string_of_Z (z : Z) : string := NilZero.string_of_int (Z.to_int z).

Definition nat_of_char (c : ascii) : nat := nat_of_ascii c.

Fixpoint contains_char (c : ascii) (s : string) : bool :=
  match s with
  | EmptyString => false
  | String c' s' => Ascii.eqb c c' || contains_char c s'
  end.

Definition hex_digit (n : nat) : ascii :=
  if Nat.ltb n 10 then ascii_of_nat (48 + n) else ascii_of_nat (87 + n).

(** One character of [repr(s)] for the quote [q] in use. *)
Definition repr_char (q c : ascii) : string :=
  let n := nat_of_char c in
  if Ascii.eqb c "\"%char then "\\"
  else if Ascii.eqb c q then String "\"%char (String q EmptyString)
  else if Nat.eqb n 10 then "\n"
  else if Nat.eqb n 13 then "\r"
  else if Nat.eqb n 9 then "\t"
  else if Nat.ltb n 32 || Nat.eqb n 127 then
    String "\"%char (String "x"%char
      (String (hex_digit (n / 16)) (String (hex_digit (n mod 16)) EmptyString)))
  else String c EmptyString.

Fixpoint repr_body (q : ascii) (s : string) : string :=
  match s with
  | EmptyString => EmptyString
  | String c s' => (repr_char q c ++ repr_body q s')%string
  end.

Definition double_quote : ascii := ascii_of_nat 34.

(** [repr] of a [str]: single quotes, unless the text has a single quote
    and no double quote. *)
Definition repr_str (s : string) : string :=
  let q := if contains_char "'"%char s && negb (contains_char double_quote s)
           then double_quote else "'"%char in
  String q (repr_body q s ++ String q EmptyString)%string.

Fixpoint join (sep : string) (l : list string) : string :=
  match l with
  | [] => EmptyString
  | [x] => x
  | x :: l' => (x ++ sep ++ join sep l')%string
  end.

Fixpoint py_repr (v : json) : string :=
  match v with
  | JNull => "None"
  | JBool true => "True"
  | JBool false => "False"
  | JInt z => string_of_Z z
  | JFloat lit => lit
  | JStr s => repr_str s
  | JArr items => ("[" ++ join ", " (map py_repr items) ++ "]")%string
  | JObj members =>
      ("{" ++ join ", "
         (map (fun kv => repr_str (fst kv) ++ ": " ++ py_repr (snd kv))
              members) ++ "}")%string
  end.

(** [str(v)], which an f-string applies to its fields. *)
Definition py_str (v : json) : string :=
  match v with
  | JStr s => s
  | _ => py_repr v
  end.

(** ** Subscripts and iteration *)

(** [v[key]] with a string key. *)
Definition subscript (v : json) (key : string) : outcome json :=
  match v with
  | JObj members =>
      match assoc key members with
      | Some x => Ok x
      | None => Raise KeyError
      end
  | _ => Raise TypeError
  end.

Fixpoint chars (s : string) : list json :=
  match s with
  | EmptyString => []
  | String c s' => JStr (String c EmptyString) :: chars s'
  end.

(** The elements a [for] loop draws from [v]. *)
Definition py_iter (v : json) : outcome (list json) :=
  match v with
  | JArr items => Ok items
  | JObj members => Ok (map (fun kv => JStr (fst kv)) members)
  | JStr s => Ok (chars s)
  | _ => Raise TypeError
  end.

(** [v.items()]. *)
Definition py_items (v : json) : outcome (list (string * json)) :=
  match v with
  | JObj members => Ok members
  | _ => Raise AttributeError
  end.

(* ================================================================== *)
(** * Integer conversion: [astype('int64')] *)
(* ================================================================== *)

Definition is_space (c : ascii) : bool :=
  let n := nat_of_char c in
  (Nat.leb 9 n && Nat.leb n 13) || (Nat.leb 28 n && Nat.leb n 32).

Definition digit_of (c : ascii) : option Z :=
  let n := nat_of_char c in
  if Nat.leb 48 n && Nat.leb n 57 then Some (Z.of_nat (n - 48)) else None.

Fixpoint drop_spaces (l : list ascii) : list ascii :=
  match l with
  | c :: l' => if is_space c then drop_spaces l' else l
  | [] => []
  end.

(** [s.strip()] on the characters of [s]. *)
Definition strip (l : list ascii) : list ascii :=
  rev (drop_spaces (rev (drop_spaces l))).

(** Decimal digits in which single underscores may separate digits, as
    [int] accepts them; [after_digit] tells whether the previous character
    was a digit. *)
Fixpoint digits_value (acc : Z) (after_digit : bool) (l : list ascii)
  : option Z :=
  match l with
  | [] => if after_digit then Some acc else None
  | c :: l' =>
      match digit_of c with
      | Some d => digits_value (10 * acc + d) true l'
      | None =>
          if Ascii.eqb c "_"%char && after_digit
          then digits_value acc false l'
          else None
      end
  end.

(** [int(s)] for a text [s] in base ten; [None] is its [ValueError]. *)
Definition int_of_text (s : string) : option Z :=
  match strip (list_ascii_of_string s) with
  | c :: l =>
      if Ascii.eqb c "-"%char then option_map Z.opp (digits_value 0 false l)
      else if Ascii.eqb c "+"%char then digits_value 0 false l
      else digits_value 0 false (c :: l)
  | [] => None
  end.

(** Plain digits, without underscores, as in the [repr] of a float. *)
Fixpoint plain_digits (acc : Z) (l : list ascii) : option Z :=
  match l with
  | [] => Some acc
  | c :: l' =>
      match digit_of c with
      | Some d => plain_digits (10 * acc + d) l'
      | None => None
      end
  end.

(** Splits at the first [c]: the part before, and the part after if [c]
    occurs. *)
Fixpoint split_at (c : ascii) (l : list ascii)
  : list ascii * option (list ascii) :=
  match l with
  | [] => ([], None)
  | x :: l' =>
      if Ascii.eqb x c then ([], Some l')
      else let (a, b) := split_at c l' in (x :: a, b)
  end.

Definition signed_digits (l : list ascii) : option Z :=
  match l with
  | [] => None
  | c :: l' =>
      if Ascii.eqb c "-"%char then
        match l' with [] => None | _ => option_map Z.opp (plain_digits 0 l') end
      else if Ascii.eqb c "+"%char then
        match l' with [] => None | _ => plain_digits 0 l' end
      else plain_digits 0 l
  end.

(** The integer part (towards zero) of a finite float given by its
    [repr]: digits, an optional fraction, an optional exponent. [None]
    for [nan], [inf] and any other text. *)
Definition trunc_of_float (lit : string) : option Z :=
  let l := list_ascii_of_string lit in
  let (neg, body) :=
    match l with
    | c :: l' => if Ascii.eqb c "-"%char then (true, l') else (false, l)
    | [] => (false, l)
    end in
  let (mant, expo) := split_at "e"%char body in
  let (ip, fp) := split_at "."%char mant in
  let frac := match fp with Some f => f | None => [] end in
  match ip, plain_digits 0 (ip ++ frac),
        match expo with Some e => signed_digits e | None => Some 0%Z end with
  | _ :: _, Some m, Some e =>
      let e10 := (e - Z.of_nat (List.length frac))%Z in
      let a := if (0 <=? e10)%Z then (m * 10 ^ e10)%Z
               else (m / 10 ^ (- e10))%Z in
      Some (if neg then (- a)%Z else a)
  | _, _, _ => None
  end.

Definition in_int64 (z : Z) : bool :=
  ((- 2 ^ 63 <=? z) && (z <? 2 ^ 63))%Z.

(** The conversion [astype('int64')] applies to one cell. An integer out
    of the 64-bit range does not fit the array: [OverflowError]. For a
    float out of range or infinite the result depends on the dtype the
    column had and on the platform, which is left out. *)
Definition to_int64 (v : json) : outcome Z :=
  match v with
  | JInt z => if in_int64 z then Ok z else Raise OverflowError
  | JBool b => Ok (if b then 1%Z else 0%Z)
  | JStr s =>
      match int_of_text s with
      | Some z => if in_int64 z then Ok z else Raise OverflowError
      | None => Raise ValueError
      end
  | JFloat lit =>
      match trunc_of_float lit with
      | Some z => if in_int64 z then Ok z else Raise Unmodelled
      | None => if String.eqb lit "nan" then Raise ValueError
                else Raise Unmodelled
      end
  | JNull => Raise TypeError
  | JArr _ | JObj _ => Raise TypeError
  end.

(** All cells of a column, stopping at the first one that raises. *)
Fixpoint astype_int64 (cells : list json) : outcome (list json) :=
  match cells with
  | [] => Ok []
  | v :: cells' =>
      match to_int64 v with
      | Raise e => Raise e
      | Ok z =>
          match astype_int64 cells' with
          | Raise e => Raise e
          | Ok zs => Ok (JInt z :: zs)
          end
      end
  end.

(* ================================================================== *)
(** * DataFrames *)
(* ================================================================== *)

(** A DataFrame: its column labels and its rows of cells. Every frame
    the script builds carries the default index 0, 1, ..., which is
    therefore left implicit. *)
Record table : Type := { columns : list string; rows : list (list json) }.

Definition nrows (t : table) : nat := List.length (rows t).

Fixpoint pad_to (n : nat) (r : list json) : list json :=
  match n, r with
  | O, _ => r
  | S n', [] => JNull :: pad_to n' []
  | S n', v :: r' => v :: pad_to n' r'
  end.

(** [pd.DataFrame(data, columns=names)] for a list of lists: the rows
    are filled with [None] up to the longest one, whose length must be
    the number of labels. *)
Definition DataFrame (data : list (list json)) (names : list string)
  : outcome table :=
  match data with
  | [] => Ok {| columns := names; rows := [] |}
  | _ =>
      let width := list_max (map (@List.length json) data) in
      if Nat.eqb width (List.length names)
      then Ok {| columns := names; rows := map (pad_to width) data |}
      else Raise ValueError
  end.

Fixpoint index_of (name : string) (names : list string) : option nat :=
  match names with
  | [] => None
  | n :: names' =>
      if String.eqb name n then Some O
      else option_map S (index_of name names')
  end.

Definition cell (j : nat) (r : list json) : json := nth j r JNull.

Definition column (j : nat) (t : table) : list json := map (cell j) (rows t).

Fixpoint set_nth (j : nat) (v : json) (r : list json) : list json :=
  match j, r with
  | _, [] => []
  | O, _ :: r' => v :: r'
  | S j', x :: r' => x :: set_nth j' v r'
  end.

(** Stores [cells] as column [j], row by row. *)
Fixpoint set_column (j : nat) (cells : list json) (rs : list (list json))
  : list (list json) :=
  match cells, rs with
  | v :: cells', r :: rs' => set_nth j v r :: set_column j cells' rs'
  | _, _ => rs
  end.

(** [df[name] = df[name].astype('int64')]. *)
Definition astype_column (name : string) (t : table) : outcome table :=
  match index_of name (columns t) with
  | None => Raise KeyError
  | Some j =>
      match astype_int64 (column j t) with
      | Raise e => Raise e
      | Ok cells =>
          Ok {| columns := columns t; rows := set_column j cells (rows t) |}
      end
  end.

(** ** [DataFrame.from_dict] on a list of records *)

Definition is_obj (v : json) : bool :=
  match v with JObj _ => true | _ => false end.

Definition members_of (v : json) : list (string * json) :=
  match v with JObj m => m | _ => [] end.

Definition mem_string (s : string) (l : list string) : bool :=
  existsb (String.eqb s) l.

(** The keys of the records in the order in which they are first seen. *)
Fixpoint union_keys (seen : list string) (ks : list string) : list string :=
  match ks with
  | [] => seen
  | k :: ks' =>
      if mem_string k seen then union_keys seen ks'
      else union_keys (seen ++ [k]) ks'
  end.

Definition record_keys (items : list json) : list string :=
  fold_left (fun seen v => union_keys seen (map fst (members_of v))) items [].

Definition record_row (names : list string) (v : json) : list json :=
  map (fun k => match assoc k (members_of v) with
                | Some x => x
                | None => JNull
                end) names.

(** [pd.DataFrame.from_dict(data)]: one row per dict of a list of dicts,
    one column per key, a missing key giving a missing cell. [None] gives
    the empty frame. What pandas makes of any other shape of [data] is
    left out. *)
Definition from_dict (data : json) : outcome table :=
  match data with
  | JNull => Ok {| columns := []; rows := [] |}
  | JArr items =>
      if forallb is_obj items then
        let names := record_keys items in
        Ok {| columns := names; rows := map (record_row names) items |}
      else Raise Unmodelled
  | _ => Raise Unmodelled
  end.

(** ** [pd.merge(left, right, how='right', left_on=..., right_on=...)] *)

(** Two join keys match when they are the same scalar (missing keys
    match each other, as in pandas). The reconciliation pandas does
    between key columns of different dtypes is not described. *)
Definition key_eqb (a b : json) : bool :=
  match a, b with
  | JNull, JNull => true
  | JBool x, JBool y => Bool.eqb x y
  | JInt x, JInt y => Z.eqb x y
  | JFloat x, JFloat y => String.eqb x y
  | JStr x, JStr y => String.eqb x y
  | _, _ => false
  end.

Section RightJoin.
Context {L R O : Type}.
Variable matches : L -> R -> bool.
Variable paired : L -> R -> O.
Variable unpaired : R -> O.

(** The rows a right join makes of one row [r] of the right frame: one
    per matching left row, or a single one when nothing matches. *)
Definition join_row (left : list L) (r : R) : list O :=
  match filter (fun l => matches l r) left with
  | [] => [unpaired r]
  | ms => map (fun l => paired l r) ms
  end.

Definition right_join (left : list L) (right : list R) : list O :=
  flat_map (join_row left) right.
End RightJoin.

Definition count_label (name : string) (names : list string) : nat :=
  List.length (filter (String.eqb name) names).

(** The position of the key column [name]: the label must exist, and
    must not be ambiguous. *)
Definition key_index (name : string) (names : list string) : outcome nat :=
  match index_of name names with
  | None => Raise KeyError
  | Some j => if Nat.eqb (count_label name names) 1 then Ok j
              else Raise ValueError
  end.

(** Labels occurring on both sides get the suffixes [_x] and [_y]. *)
Definition suffixed (suffix : string) (others : list string) (name : string)
  : string :=
  if mem_string name others then (name ++ suffix)%string else name.

Definition merge_right (left right : table) (left_on right_on : string)
  : outcome table :=
  match key_index left_on (columns left) with
  | Raise e => Raise e
  | Ok li =>
      match key_index right_on (columns right) with
      | Raise e => Raise e
      | Ok ri =>
          Ok {| columns :=
                  map (suffixed "_x" (columns right)) (columns left) ++
                  map (suffixed "_y" (columns left)) (columns right);
                rows :=
                  right_join (fun l r => key_eqb (cell li l) (cell ri r))
                             (fun l r => l ++ r)
                             (fun r => repeat JNull (List.length (columns left)) ++ r)
                             (rows left) (rows right) |}
      end
  end.

(* ================================================================== *)
(** * CSV files *)
(* ================================================================== *)

(** A CSV file after tokenising: its records, each a list of fields, the
    first record being the header. Quoting and line breaks are the
    business of the reader and the writer and do not appear. *)
Definition csv : Type := list (list string).

Definition string_of_nat (n : nat) : string := string_of_Z (Z.of_nat n).

(** The text of one cell: nothing for a missing value, [str] otherwise. *)
Definition cell_text (v : json) : string :=
  match v with
  | JNull => ""
  | JFloat lit => if String.eqb lit "nan" then "" else lit
  | _ => py_str v
  end.

Fixpoint indexed_from {A : Type} (i : nat) (l : list A) : list (nat * A) :=
  match l with
  | [] => []
  | x :: l' => (i, x) :: indexed_from (S i) l'
  end.

(** [df.to_csv(path, index=True)]: the index is written as a first
    column, whose header field is empty since the index has no name. *)
Definition to_csv (t : table) : csv :=
  ("" :: columns t) ::
  map (fun ir => string_of_nat (fst ir) :: map cell_text (snd ir))
      (indexed_from 0 (rows t)).

(** The header of a file read by [read_csv]: a field left empty is
    named after its position. *)
Definition header_names (header : list string) : list string :=
  map (fun jn => if String.eqb (snd jn) ""
                 then ("Unnamed: " ++ string_of_nat (fst jn))%string
                 else snd jn)
      (indexed_from 0 header).

Fixpoint has_dup (l : list string) : bool :=
  match l with
  | [] => false
  | x :: l' => mem_string x l' || has_dup l'
  end.

Definition field (j : nat) (r : list string) : string := nth j r "".

Section ReadCsv.
(** The cell pandas reads from one field, which depends on all the
    fields of its column (the column's dtype, the texts standing for a
    missing value, the parsing of numbers). The results hold whatever
    this inference is. *)
Variable infer : list string -> string -> json.

(** [pd.read_csv(path, index_col=False)] on the records of the file:
    every column of the file, the first one included, is a data column.
    Records that do not have the width of the header, and headers with
    a repeated label (which pandas renames), are left out. *)
Definition read_csv (doc : csv) : outcome table :=
  match doc with
  | [] => Raise EmptyDataError
  | header :: body =>
      let names := header_names header in
      if has_dup names then Raise Unmodelled
      else if forallb (fun r => Nat.eqb (List.length r) (List.length header)) body
      then Ok {| columns := names;
                 rows := map (fun r =>
                                map (fun jf => infer (map (field (fst jf)) body)
                                                     (snd jf))
                                    (indexed_from 0 r))
                             body |}
      else Raise Unmodelled
  end.
End ReadCsv.

(** An inference for examples with integers and text only: a column of
    integer literals is read as integers, any other column as text, an
    empty field as a missing value. *)
Definition int_literal (f : string) : option Z :=
  match signed_digits (list_ascii_of_string f) with
  | Some z => if in_int64 z then Some z else None
  | None => None
  end.

Definition infer_plain (col : list string) (f : string) : json :=
  if forallb (fun x => match int_literal x with
                       | Some _ => true
                       | None => false
                       end) col
  then match int_literal f with Some z => JInt z | None => JNull end
  else if String.eqb f "" then JNull else JStr f.

(* ================================================================== *)
(** * The world: files, clock, standard output, HTTP *)
(* ================================================================== *)

(** ** The working directory *)

Inductive node : Type :=
| File (records : csv)
| Dir (entries : list (string * node)).

(** The entries of a directory, by name. *)
Definition dir : Type := list (string * node).

(** A path relative to the working directory, one name per component:
    ['data/backup_20240131/prices.csv'] is
    [["data"; "backup_20240131"; "prices.csv"]]. *)
Definition path : Type := list string.

(** What [p] names, from the directory [es]. *)
Fixpoint resolve (p : path) (es : dir) : outcome node :=
  match p with
  | [] => Ok (Dir es)
  | c :: p' =>
      match assoc c es with
      | None => Raise FileNotFoundError
      | Some (Dir es') => resolve p' es'
      | Some (File doc) =>
          match p' with
          | [] => Ok (File doc)
          | _ :: _ => Raise NotADirectoryError
          end
      end
  end.

(** Rewrites the entry at [p]: [change] gets what is there at present. *)
Fixpoint update (p : path) (change : option node -> outcome node) (es : dir)
  : outcome dir :=
  match p with
  | [] => Raise FileExistsError
  | c :: p' =>
      match p' with
      | [] =>
          match change (assoc c es) with
          | Ok new => Ok (assoc_set c new es)
          | Raise e => Raise e
          end
      | _ :: _ =>
          match assoc c es with
          | None => Raise FileNotFoundError
          | Some (File _) => Raise NotADirectoryError
          | Some (Dir es') =>
              match update p' change es' with
              | Ok new => Ok (assoc_set c (Dir new) es)
              | Raise e => Raise e
              end
          end
      end
  end.

(** [os.path.exists(p)]. *)
Definition os_path_exists (p : path) (es : dir) : bool :=
  match resolve p es with Ok _ => true | Raise _ => false end.

(** [os.mkdir(p)]. *)
Definition os_mkdir (p : path) (es : dir) : outcome dir :=
  update p (fun old => match old with
                       | None => Ok (Dir [])
                       | Some _ => Raise FileExistsError
                       end) es.

(** [os.listdir(p)]. *)
Definition os_listdir (p : path) (es : dir) : outcome (list string) :=
  match resolve p es with
  | Ok (Dir es') => Ok (map fst es')
  | Ok (File _) => Raise NotADirectoryError
  | Raise e => Raise e
  end.

(** Opening [p] for writing and storing [doc] in it. *)
Definition write_file (p : path) (doc : csv) (es : dir) : outcome dir :=
  update p (fun old => match old with
                       | Some (Dir _) => Raise IsADirectoryError
                       | _ => Ok (File doc)
                       end) es.

(** Opening [p] for reading. *)
Definition read_file (p : path) (es : dir) : outcome csv :=
  match resolve p es with
  | Ok (File doc) => Ok doc
  | Ok (Dir _) => Raise IsADirectoryError
  | Raise e => Raise e
  end.

(** What [p] is: nothing, a directory, or a file with its records. *)
Inductive kind : Type :=
| Nothing
| Directory
| Regular (doc : csv).

Definition stat (p : path) (es : dir) : kind :=
  match resolve p es with
  | Ok (File doc) => Regular doc
  | Ok (Dir _) => Directory
  | Raise _ => Nothing
  end.

(** ** [sorted(names, reverse=True)] *)

(** Strings are compared character by character, as Python compares
    code points. *)
Fixpoint insert_desc (x : string) (l : list string) : list string :=
  match l with
  | [] => [x]
  | y :: l' => if String.leb y x then x :: l else y :: insert_desc x l'
  end.

Definition sorted_reverse (l : list string) : list string :=
  fold_right insert_desc [] l.

(** [s[-n:]]. *)
Definition last_chars (n : nat) (s : string) : string :=
  substring (String.length s - n) n s.

(** ** The clock *)

Record date : Type := { year : nat; month : nat; day : nat }.

Fixpoint zeros (n : nat) : string :=
  match n with O => "" | S n' => String "0"%char (zeros n') end.

Definition zero_padded (width n : nat) : string :=
  let s := string_of_nat n in
  (zeros (width - String.length s) ++ s)%string.

(** [strftime('%Y%m%d')]. *)
Definition strftime_Ymd (d : date) : string :=
  (zero_padded 4 (year d) ++ zero_padded 2 (month d) ++ zero_padded 2 (day d))%string.

(** ** HTTP *)

Record request : Type := {
  method : string;
  url : string;
  headers : list (string * string);
  params : list (string * string)
}.

(** What [requests.request] does with a request: it raises, or returns a
    response whose body decodes to a JSON value or does not. *)
Inductive reply : Type :=
| Failed (e : exn)
| Response (body : option json).

Record world : Type := {
  cwd : dir;
  stdout : list string;
  now : date;
  server : request -> reply;
  sent : list request
}.

(* ================================================================== *)
(** * The object and the monad of its methods *)
(* ================================================================== *)

(** An attribute that holds a DataFrame once it is computed. [Absent]:
    the object has no such attribute yet; [IsNone]: it is [None]. *)
Inductive slot : Type :=
| Absent
| IsNone
| Frame (t : table).

Record obj : Type := {
  is_update : bool;
  authorization : string;
  access_token : json;
  raw_response : json;
  stations_df : slot;
  prices_df : slot;
  combined_df : slot;
  working_df : slot
}.

Record state : Type := { self : obj; outside : world }.

(** A method runs from a state to a result or an exception, and to the
    state it leaves behind: what was assigned, printed or written before
    an exception stays so. *)
Definition M (A : Type) : Type := state -> outcome A * state.

Definition ret {A : Type} (a : A) : M A := fun st => (Ok a, st).

Definition raise {A : Type} (e : exn) : M A := fun st => (Raise e, st).

Definition bind {A B : Type} (m : M A) (k : A -> M B) : M B :=
  fun st =>
    match m st with
    | (Ok a, st') => k a st'
    | (Raise e, st') => (Raise e, st')
    end.

Declare Scope py_scope.
Delimit Scope py_scope with py.
Notation "x <- m ;; k" := (bind m (fun x => k))
  (at level 61, m at next level, right associativity) : py_scope.
Notation "m ;; k" := (bind m (fun _ => k))
  (at level 61, right associativity) : py_scope.
Local Open Scope py_scope.

(** [try: body except: handler], with the bare [except] that catches
    every exception. *)
Definition try_except (body handler : M unit) : M unit :=
  fun st =>
    match body st with
    | (Ok u, st') => (Ok u, st')
    | (Raise _, st') => handler st'
    end.

Definition lift {A : Type} (o : outcome A) : M A := fun st => (o, st).

Definition get_self : M obj := fun st => (Ok (self st), st).

Definition get_world : M world := fun st => (Ok (outside st), st).

Definition set_self (o : obj) : M unit :=
  fun st => (Ok tt, {| self := o; outside := outside st |}).

Definition set_world (w : world) : M unit :=
  fun st => (Ok tt, {| self := self st; outside := w |}).

(** ** Assignments to the attributes of [self] *)

Definition set_access_token (v : json) (o : obj) : obj :=
  {| is_update := is_update o; authorization := authorization o;
     access_token := v; raw_response := raw_response o;
     stations_df := stations_df o; prices_df := prices_df o;
     combined_df := combined_df o; working_df := working_df o |}.

Definition set_raw_response (v : json) (o : obj) : obj :=
  {| is_update := is_update o; authorization := authorization o;
     access_token := access_token o; raw_response := v;
     stations_df := stations_df o; prices_df := prices_df o;
     combined_df := combined_df o; working_df := working_df o |}.

Definition set_stations_df (v : slot) (o : obj) : obj :=
  {| is_update := is_update o; authorization := authorization o;
     access_token := access_token o; raw_response := raw_response o;
     stations_df := v; prices_df := prices_df o;
     combined_df := combined_df o; working_df := working_df o |}.

Definition set_prices_df (v : slot) (o : obj) : obj :=
  {| is_update := is_update o; authorization := authorization o;
     access_token := access_token o; raw_response := raw_response o;
     stations_df := stations_df o; prices_df := v;
     combined_df := combined_df o; working_df := working_df o |}.

Definition set_combined_df (v : slot) (o : obj) : obj :=
  {| is_update := is_update o; authorization := authorization o;
     access_token := access_token o; raw_response := raw_response o;
     stations_df := stations_df o; prices_df := prices_df o;
     combined_df := v; working_df := working_df o |}.

Definition set_working_df (v : slot) (o : obj) : obj :=
  {| is_update := is_update o; authorization := authorization o;
     access_token := access_token o; raw_response := raw_response o;
     stations_df := stations_df o; prices_df := prices_df o;
     combined_df := combined_df o; working_df := v |}.

Definition assign (f : obj -> obj) : M unit :=
  o <- get_self ;; set_self (f o).

(** ** Effects on the world *)

Definition set_cwd (root : dir) (w : world) : world :=
  {| cwd := root; stdout := stdout w; now := now w;
     server := server w; sent := sent w |}.

Definition print (line : string) : M unit :=
  w <- get_world ;;
  set_world {| cwd := cwd w; stdout := stdout w ++ [line]; now := now w;
               server := server w; sent := sent w |}.

(** [requests.request(...)]: the request goes out, and the call raises
    or returns the response. *)
Definition requests_request (r : request) : M (option json) :=
  w <- get_world ;;
  set_world {| cwd := cwd w; stdout := stdout w; now := now w;
               server := server w; sent := sent w ++ [r] |} ;;
  match server w r with
  | Failed e => raise e
  | Response body => ret body
  end.

(** [response.json()]: a body that is not JSON raises a decoding error,
    which is a [ValueError]. *)
Definition response_json (body : option json) : M json :=
  match body with
  | Some v => ret v
  | None => raise ValueError
  end.

(** Reading an attribute that must hold a frame, for a method call on
    it: both a missing attribute and [None] give [AttributeError]. *)
Definition frame_of (s : slot) : M table :=
  match s with
  | Frame t => ret t
  | _ => raise AttributeError
  end.

(** [df.to_csv(path, index=True)] on the attribute [s]. *)
Definition df_to_csv (s : slot) (p : path) : M unit :=
  t <- frame_of s ;;
  w <- get_world ;;
  root <- lift (write_file p (to_csv t) (cwd w)) ;;
  set_world (set_cwd root w).

Definition mkdir (p : path) : M unit :=
  w <- get_world ;;
  root <- lift (os_mkdir p (cwd w)) ;;
  set_world (set_cwd root w).

Definition path_exists (p : path) : M bool :=
  w <- get_world ;; ret (os_path_exists p (cwd w)).

(* ================================================================== *)
(** * The module and the class [FuelPriceUpdate] *)
(* ================================================================== *)

(** [BASE64_AUTH = os.environ['BASE64_AUTH']], run when the module is
    imported: the global it binds, or [KeyError]. *)
Definition import_BASE64_AUTH (environ : list (string * string))
  : outcome string :=
  match assoc "BASE64_AUTH" environ with
  | Some v => Ok v
  | None => Raise KeyError
  end.

(** The module constants [update_data] names and the file does not
    define; they are taken as given. *)
Record constants : Type := {
  CONTENT_TYPE : string;
  API_KEY : string;
  CUR_TIME : string
}.

(** [__init__(self, authorization, is_update=False)]. The attribute
    [working_df] is not created here. *)
Definition init (authorization : string) (is_update : bool) : obj :=
  {| is_update := is_update;
     authorization := authorization;
     access_token := JNull;
     raw_response := JNull;
     stations_df := IsNone;
     prices_df := IsNone;
     combined_df := IsNone;
     working_df := Absent |}.

Definition token_request (o : obj) : request :=
  {| method := "GET";
     url := "https://api.onegov.nsw.gov.au/oauth/client_credential/accesstoken";
     headers := [("content-type", "application/json");
                 ("authorization", authorization o)];
     params := [("grant_type", "client_credentials")] |}.

Definition get_token : M unit :=
  print "Step 1/6 : Generating Access Token for NSW API..." ;;
  o <- get_self ;;
  response <- requests_request (token_request o) ;;
  decoded <- response_json response ;;
  token <- lift (subscript decoded "access_token") ;;
  assign (set_access_token token).

Definition prices_request (k : constants) (o : obj) : request :=
  {| method := "GET";
     url := "https://api.onegov.nsw.gov.au/FuelPriceCheck/v2/fuel/prices";
     headers := [("content-type", CONTENT_TYPE k);
                 ("authorization", ("Bearer " ++ py_str (access_token o))%string);
                 ("apikey", API_KEY k);
                 ("transactionid", "1");
                 ("requesttimestamp", CUR_TIME k)];
     params := [("states", "NSW")] |}.

(** The body of the [try] in [update_data]. *)
Definition fetch_prices (r : request) : M unit :=
  response <- requests_request r ;;
  decoded <- response_json response ;;
  assign (set_raw_response decoded).

Definition update_data (k : constants) : M unit :=
  print "Step 2/6 : Fetching Fuel Price from NSW API..." ;;
  o <- get_self ;;
  try_except
    (fetch_prices (prices_request k o))
    (print "Failed to fetch fuel prices, please try again later.").

(** The state in which the [try] of [update_data] starts. *)
Definition at_try (st : state) : state :=
  snd (print "Step 2/6 : Fetching Fuel Price from NSW API..." st).

Definition create_price_list : M unit :=
  print "Step 3/6 : Generating Fuel Price Dataframe..." ;;
  o <- get_self ;;
  prices <- lift (subscript (raw_response o) "prices") ;;
  df <- lift (from_dict prices) ;;
  assign (set_prices_df (Frame df)).

(** The inner loops of [create_station_list]: the row of one station,
    the two coordinates of ['location'] taking the place of that item. *)
Fixpoint station_row (items : list (string * json)) : outcome (list json) :=
  match items with
  | [] => Ok []
  | (col, value) :: items' =>
      match (if String.eqb col "location"
             then match py_items value with
                  | Ok degrees => Ok (map snd degrees)
                  | Raise e => Raise e
                  end
             else Ok [value]) with
      | Raise e => Raise e
      | Ok cells =>
          match station_row items' with
          | Raise e => Raise e
          | Ok row => Ok (cells ++ row)
          end
      end
  end.

(** The outer loop: one row per station. *)
Fixpoint station_rows (stations : list json) : outcome (list (list json)) :=
  match stations with
  | [] => Ok []
  | station :: stations' =>
      match py_items station with
      | Raise e => Raise e
      | Ok items =>
          match station_row items with
          | Raise e => Raise e
          | Ok row =>
              match station_rows stations' with
              | Raise e => Raise e
              | Ok rows => Ok (row :: rows)
              end
          end
      end
  end.

Definition station_columns : list string :=
  ["brandid"; "stationid"; "brand"; "code"; "name";
   "address"; "latitude"; "longitude"; "state"].

Definition create_station_list : M unit :=
  print "Step 4/6 : Generating Station List... " ;;
  o <- get_self ;;
  stations <- lift (subscript (raw_response o) "stations") ;;
  items <- lift (py_iter stations) ;;
  rows <- lift (station_rows items) ;;
  df <- lift (DataFrame rows station_columns) ;;
  df <- lift (astype_column "code" df) ;;
  assign (set_stations_df (Frame df)).

(** Reading an attribute: [AttributeError] when it does not exist. *)
Definition read_attr (s : slot) : outcome (option table) :=
  match s with
  | Absent => Raise AttributeError
  | IsNone => Ok None
  | Frame t => Ok (Some t)
  end.

(** [pd.merge(left, right, how='right', left_on=..., right_on=...)],
    which refuses an argument that is not a frame. *)
Definition pd_merge_right (left right : option table)
  (left_on right_on : string) : outcome table :=
  match left, right with
  | Some l, Some r => merge_right l r left_on right_on
  | _, _ => Raise TypeError
  end.

Definition build_working_df : M unit :=
  print "Step 5/6 : Building Working Dataframe for Processing... " ;;
  o <- get_self ;;
  left <- lift (read_attr (stations_df o)) ;;
  right <- lift (read_attr (prices_df o)) ;;
  df <- lift (pd_merge_right left right "code" "stationcode") ;;
  assign (set_working_df (Frame df)).

Definition save_as_csv (p : path) : M unit :=
  o <- get_self ;;
  df_to_csv (stations_df o) (p ++ ["stations.csv"]) ;;
  df_to_csv (prices_df o) (p ++ ["prices.csv"]) ;;
  df_to_csv (working_df o) (p ++ ["combined.csv"]) ;;
  print "   - Export Completed.".

Definition check_folder (p : path) : M unit :=
  present <- path_exists p ;;
  if (present : bool) then save_as_csv p
  else (mkdir p ;; save_as_csv p).

Definition backup_name (d : date) : string :=
  ("backup_" ++ strftime_Ymd d)%string.

Definition export : M unit :=
  print "Step 6/6 : Saving Price and Station data as csv file... " ;;
  w <- get_world ;;
  let p := ["data"; backup_name (now w)] in
  present <- path_exists ["data"] ;;
  if (present : bool) then check_folder p
  else (mkdir ["data"] ;; check_folder p).

Section Reload.
Variable infer : list string -> string -> json.

(** The frame [pd.read_csv(p, index_col=False)] makes of the file
    [p] of the working directory [es]. *)
Definition load_csv (p : path) (es : dir) : outcome table :=
  match read_file p es with
  | Ok doc => read_csv infer doc
  | Raise e => Raise e
  end.

Definition pd_read_csv (p : path) : M table :=
  w <- get_world ;; lift (load_csv p (cwd w)).

Definition read_record : M unit :=
  w <- get_world ;;
  names <- lift (os_listdir ["data"] (cwd w)) ;;
  let all_subdirs := sorted_reverse names in
  latest_folder <- match all_subdirs with
                   | x :: _ => ret x
                   | [] => raise IndexError
                   end ;;
  let p := ["data"; latest_folder] in
  let on := last_chars 8 latest_folder in
  print ("Step 1/3 : Retriving Fuel Price Data on " ++ on)%string ;;
  df <- pd_read_csv (p ++ ["prices.csv"]) ;;
  assign (set_prices_df (Frame df)) ;;
  print ("Step 2/3 : Retriving Fuel Price Data on " ++ on)%string ;;
  df <- pd_read_csv (p ++ ["stations.csv"]) ;;
  assign (set_stations_df (Frame df)) ;;
  print ("Step 3/3 : Retriving Fuel Price Data on " ++ on)%string ;;
  df <- pd_read_csv (p ++ ["combined.csv"]) ;;
  assign (set_working_df (Frame df)) ;;
  print "Data retrieved without error.".

Definition run (k : constants) : M unit :=
  print "FuelRun - Backend //" ;;
  o <- get_self ;;
  if is_update o then
    print "Downloading and Processing Latest Data - " ;;
    get_token ;;
    update_data k ;;
    create_price_list ;;
    create_station_list ;;
    build_working_df ;;
    export
  else read_record.
End Reload.

(* ================================================================== *)
(** * Vocabulary of the results *)
(* ================================================================== *)

(** A cell of dtype int64. *)
Definition is_int64 (v : json) : Prop :=
  match v with
  | JInt z => in_int64 z = true
  | _ => False
  end.

(** The cell of row [r] of [t] under the label [name]. *)
Definition cell_of (name : string) (t : table) (r : list json) : json :=
  match index_of name (columns t) with
  | Some j => cell j r
  | None => JNull
  end.

(** The rows of [stations] whose code is the station code of the row
    [r] of [prices]. *)
Definition stations_matching (stations prices : table) (r : list json)
  : list (list json) :=
  filter (fun l => key_eqb (cell_of "code" stations l)
                           (cell_of "stationcode" prices r))
         (rows stations).

(** Descending order, every element being compared with all later ones. *)
Definition descending : list string -> Prop :=
  StronglySorted (fun a b => String.leb b a = true).

(** What a node is, and what an optional node is. *)
Definition kind_of (n : node) : kind :=
  match n with File doc => Regular doc | Dir _ => Directory end.

Definition kind_of_opt (o : option node) : kind :=
  match o with Some n => kind_of n | None => Nothing end.

(** A node under which no path leads anywhere. *)
Definition leaf (n : node) : Prop :=
  match n with File _ => True | Dir es => es = [] end.

Definition leaf_opt (o : option node) : Prop :=
  match o with Some n => leaf n | None => True end.

(** A token response on which [get_token] cannot find a token: the
    request fails, the body is not JSON, or the decoded body has no
    ['access_token'] to give. *)
Definition no_token (r : reply) : Prop :=
  match r with
  | Failed _ => True
  | Response None => True
  | Response (Some v) => forall token, subscript v "access_token" <> Ok token
  end.

(** The same object with another value in [combined_df]. *)
Definition recombine (c : slot) (st : state) : state :=
  {| self := set_combined_df c (self st); outside := outside st |}.

(** [m] neither reads nor writes [combined_df]: changing the attribute
    beforehand changes nothing but the attribute afterwards. *)
Definition ignores_combined_df {A : Type} (m : M A) : Prop :=
  forall c st, m (recombine c st) = (fst (m st), recombine c (snd (m st))).

(** [m] leaves the part [f] of the state as it found it, whether it
    returns or raises. *)
Definition keeps {B A : Type} (f : state -> B) (m : M A) : Prop :=
  forall st, f (snd (m st)) = f st.

(** The parts of the world a method can leave alone. *)
Definition disk (st : state) : dir := cwd (outside st).
Definition outbox (st : state) : list request := sent (outside st).
Definition clock (st : state) : date := now (outside st).
Definition printed (st : state) : list string := stdout (outside st).

(** The credentials and the fetched data of the object. *)
Definition fetched_part (st : state) : bool * string * json * json :=
  (is_update (self st), authorization (self st),
   access_token (self st), raw_response (self st)).

(** The state in which the steps of an update run start, after the two
    banner lines are printed. *)
Definition started (st : state) : state :=
  snd (print "Downloading and Processing Latest Data - "
         (snd (print "FuelRun - Backend //" st))).

(** The steps of an update run that follow the two requests. *)
Definition process_and_export : M unit :=
  create_price_list ;;
  create_station_list ;;
  build_working_df ;;
  export.

(** A reply to the prices request that brings no data. *)
Definition no_data (r : reply) : Prop :=
  match r with
  | Response (Some _) => False
  | _ => True
  end.

(** [v[key]] for a record [v] of the feed, [None] standing for a
    missing key. *)
Definition field_of (key : string) (v : json) : json :=
  match subscript v key with
  | Ok x => x
  | Raise _ => JNull
  end.

(** The keys of a station record of the feed, in the order of the feed. *)
Definition station_keys : list string :=
  ["brandid"; "stationid"; "brand"; "code"; "name"; "address";
   "location"; "state"].

(** A station record as the feed documents it: an object with these
    keys in this order, whose ['location'] is an object of two
    coordinates. *)
Definition is_station (v : json) : Prop :=
  is_obj v = true /\
  map fst (members_of v) = station_keys /\
  is_obj (field_of "location" v) = true /\
  List.length (members_of (field_of "location" v)) = 2.

(** The nine cells of a station: its fields, the two coordinates taking
    the place of ['location']. *)
Definition station_record (v : json) : list json :=
  [field_of "brandid" v; field_of "stationid" v; field_of "brand" v;
   field_of "code" v; field_of "name" v; field_of "address" v] ++
  map snd (members_of (field_of "location" v)) ++
  [field_of "state" v].

(** A cell once [astype('int64')] has gone over it. *)
Definition as_int64 (v : json) : json :=
  match to_int64 v with
  | Ok z => JInt z
  | Raise _ => v
  end.

(** A method that fails leaves the object as it was. *)
Definition all_or_nothing {A : Type} (m : M A) : Prop :=
  forall st e st', m st = (Raise e, st') -> self st' = self st.

(** The files of a snapshot directory. *)
Definition snapshot_files (d : path) : list path :=
  [d ++ ["stations.csv"]; d ++ ["prices.csv"]; d ++ ["combined.csv"]].

(* ================================================================== *)
(** * Worked inputs *)
(* ================================================================== *)

Definition demo_station (code : json) (name : string) : json :=
  JObj [("brandid", JStr "1-GFYV-6"); ("stationid", JStr "1-GPPT-110");
        ("brand", JStr "BP"); ("code", code); ("name", JStr name);
        ("address", JStr "12 Mill Rd");
        ("location", JObj [("latitude", JInt (-33)); ("longitude", JInt 151)]);
        ("state", JStr "NSW")].

Definition demo_price (code : json) (fuel : string) (price : Z) : json :=
  JObj [("stationcode", code); ("fueltype", JStr fuel); ("price", JInt price)].

(** Two stations with distinct codes; two prices for the first one and a
    price for a station that is not listed. *)
Definition demo_feed : json :=
  JObj [("stations", JArr [demo_station (JStr "17") "Alpha";
                           demo_station (JStr "18") "Beta"]);
        ("prices", JArr [demo_price (JInt 17) "E10" 150;
                         demo_price (JInt 17) "U91" 152;
                         demo_price (JInt 99) "E10" 149])].

(** Two stations listed under the same code, and one price for it. *)
Definition twin_feed : json :=
  JObj [("stations", JArr [demo_station (JStr "17") "Alpha";
                           demo_station (JStr "17") "Beta"]);
        ("prices", JArr [demo_price (JInt 17) "E10" 150])].

Definition token_url : string :=
  "https://api.onegov.nsw.gov.au/oauth/client_credential/accesstoken".

(** A server that grants a token and serves [feed]. *)
Definition serving (feed : json) (r : request) : reply :=
  if String.eqb (url r) token_url
  then Response (Some (JObj [("access_token", JStr "t0k3n")]))
  else Response (Some feed).

(** A server that is down. *)
Definition unreachable (r : request) : reply :=
  Failed (OtherError "ConnectionError").

Definition demo_constants : constants :=
  {| CONTENT_TYPE := "application/json"; API_KEY := "key"; CUR_TIME := "t" |}.

Definition world_of (es : dir) (srv : request -> reply) : world :=
  {| cwd := es; stdout := [];
     now := {| year := 2024; month := 1; day := 31 |};
     server := srv; sent := [] |}.

Definition fresh (authorization : string) (is_update : bool) (w : world)
  : state :=
  {| self := init authorization is_update; outside := w |}.

(** The state an update run leaves from an empty working directory. *)
Definition after_update (feed : json) : state :=
  snd (run infer_plain demo_constants
           (fresh "Basic abc" true (world_of [] (serving feed)))).

(** The state in which a second object then reloads the snapshot. *)
Definition after_reload (feed : json) : state :=
  snd (run infer_plain demo_constants
           (fresh "Basic abc" false (outside (after_update feed)))).

(** The object once the feed is fetched, and once the two frames are
    built from it, before the join. *)
Definition fetched (feed : json) : state :=
  {| self := set_raw_response feed (init "Basic abc" true);
     outside := world_of [] (serving feed) |}.

Definition tabulated (feed : json) : state :=
  snd (bind create_price_list (fun _ => create_station_list) (fetched feed)).

(** A ['data'] directory with three snapshots and a stray file. *)
Definition tiny_snapshot (n : string) : node :=
  Dir [("stations.csv", File [[""; "code"]; ["0"; n]]);
       ("prices.csv", File [[""; "stationcode"; "price"]; ["0"; n; "150"]]);
       ("combined.csv", File [[""; "code"; "stationcode"; "price"];
                              ["0"; n; n; "150"]])].

Definition three_snapshots : dir :=
  [("data", Dir [("backup_20240101", tiny_snapshot "1");
                 ("backup_20240131", tiny_snapshot "3");
                 ("backup_20231231", tiny_snapshot "2");
                 (".DS_Store", File [])])].

(** The object once the join is done, ready for [export]. *)
Definition joined (feed : json) : state :=
  snd (build_working_df (tabulated feed)).

Definition slot_columns (s : slot) : option (list string) :=
  match s with Frame t => Some (columns t) | _ => None end.

Definition slot_nrows (s : slot) : option nat :=
  match s with Frame t => Some (nrows t) | _ => None end.

(* ================================================================== *)
(** * Results *)
(* ================================================================== *)

(** ** The monad *)

Lemma bind_Ok {A B : Type} (m : M A) (k : A -> M B) st a st' :
  m st = (Ok a, st') -> bind m k st = k a st'.
Proof. intros H. unfold bind. rewrite H. reflexivity. Qed.

Lemma bind_Raise {A B : Type} (m : M A) (k : A -> M B) st e st' :
  m st = (Raise e, st') -> bind m k st = (Raise e, st').
Proof. intros H. unfold bind. rewrite H. reflexivity. Qed.

(** A successful sequence went through a successful first step. *)
Lemma bind_inv {A B : Type} (m : M A) (k : A -> M B) st b st2 :
  bind m k st = (Ok b, st2) ->
  exists a st1, m st = (Ok a, st1) /\ k a st1 = (Ok b, st2).
Proof.
  unfold bind. destruct (m st) as [[a | e] st1]; intros H.
  - exists a, st1. split; [reflexivity | exact H].
  - discriminate H.
Qed.

(** A method that returns [a] from [st] ends in the state [snd (m st)]. *)
Lemma returns_Ok {A : Type} (m : M A) st a :
  fst (m st) = Ok a -> m st = (Ok a, snd (m st)).
Proof. destruct (m st) as [o st']. cbn. intros ->. reflexivity. Qed.

Lemma print_spec line st :
  print line st =
  (Ok tt, {| self := self st;
             outside := {| cwd := cwd (outside st);
                           stdout := stdout (outside st) ++ [line];
                           now := now (outside st);
                           server := server (outside st);
                           sent := sent (outside st) |} |}).
Proof. reflexivity. Qed.

(** ** The guarded fetch of [update_data] *)

(** The [try] body raises exactly when the request fails or the body of
    the response is not JSON; nothing is assigned then. *)
Lemma fetch_prices_Raise r st e :
  fst (fetch_prices r st) = Raise e ->
  self (snd (fetch_prices r st)) = self st /\
  stdout (outside (snd (fetch_prices r st))) = stdout (outside st).
Proof.
  unfold fetch_prices, requests_request, response_json, assign,
    bind, get_world, set_world, get_self, set_self, raise, ret; cbn.
  destruct (server (outside st) r) as [e' | [v | ]]; cbn; intros H;
    try discriminate H; split; reflexivity.
Qed.

Lemma update_data_total k st : fst (update_data k st) = Ok tt.
Proof.
  unfold update_data, try_except, fetch_prices, requests_request,
    response_json, assign, print, bind, get_world, set_world, get_self,
    set_self, raise, ret; cbn.
  destruct (server (outside st) _) as [e' | [v | ]]; reflexivity.
Qed.



(** C10. When the guarded block of [update_data] raises, the object is
    left exactly as it was: [raw_response] keeps its value, and so does
    every other attribute. *)
Theorem update_data_failure_keeps_self k st e :
  fst (fetch_prices (prices_request k (self st)) (at_try st)) = Raise e ->
  raw_response (self (snd (update_data k st))) = raw_response (self st) /\
  self (snd (update_data k st)) = self st.
Proof.
  unfold update_data, at_try, try_except, fetch_prices, requests_request,
    response_json, assign, print, bind, get_world, set_world, get_self,
    set_self, raise, ret; cbn.
  destruct (server (outside st) _) as [e' | [v | ]]; cbn; intros H;
    try discriminate H; split; reflexivity.
Qed.

Lemma update_data_failure_keeps_self_witness :
  raw_response (self (snd (update_data demo_constants
      (snd (get_token (fresh "Basic abc" true
                         (world_of [] (fun r => if String.eqb (url r) token_url
                                                then serving demo_feed r
                                                else Response None))))))))
  = JNull /\
  self (snd (update_data demo_constants
      (snd (get_token (fresh "Basic abc" true
                         (world_of [] (fun r => if String.eqb (url r) token_url
                                                then serving demo_feed r
                                                else Response None)))))))
  = set_access_token (JStr "t0k3n") (init "Basic abc" true).
Proof.
  apply (update_data_failure_keeps_self demo_constants
           (snd (get_token (fresh "Basic abc" true
                         (world_of [] (fun r => if String.eqb (url r) token_url
                                                then serving demo_feed r
                                                else Response None)))))
           ValueError).
  reflexivity.
Defined.

(** ** The token request *)

Lemma get_token_sends st :
  sent (outside (snd (get_token st))) =
  sent (outside st) ++ [token_request (self st)].
Proof.
  unfold get_token, requests_request, response_json, assign, print, lift,
    bind, get_world, set_world, get_self, set_self, raise, ret; cbn.
  destruct (server (outside st) _) as [e' | [v | ]]; cbn; try reflexivity.
  destruct (subscript v "access_token"); reflexivity.
Qed.

(** C7, as the code has it. The ['authorization'] header of the token
    request is the [authorization] argument the object was constructed
    with, whatever the environment holds: [get_token] sends exactly one
    request, [token_request], whose header is that attribute. The value
    of [BASE64_AUTH] reaches the header when, and only because, the
    caller passes it to the constructor. *)
Theorem get_token_authorization_header :
  (forall st,
     sent (outside (snd (get_token st))) =
       sent (outside st) ++ [token_request (self st)] /\
     assoc "authorization" (headers (token_request (self st))) =
       Some (authorization (self st))) /\
  (forall a u, authorization (init a u) = a) /\
  (forall environ a u w,
     import_BASE64_AUTH environ = Ok a ->
     assoc "authorization"
       (headers (token_request (self (fresh a u w)))) = Some a).
Proof.
  split; [ | split].
  - intros st. split; [apply get_token_sends | reflexivity].
  - reflexivity.
  - reflexivity.
Qed.

Lemma get_token_authorization_header_witness :
  assoc "authorization"
    (headers (token_request
                (self (fresh "Basic abc" true (world_of [] unreachable))))) =
  Some "Basic abc".
Proof.
  destruct get_token_authorization_header as [_ [_ H]].
  apply (H [("HOME", "/root"); ("BASE64_AUTH", "Basic abc")]).
  reflexivity.
Defined.

(** C7, as the spec has it, fails: with [BASE64_AUTH] set to one value
    and the object constructed with another, the header sent is the
    constructor's argument. *)
Lemma authorization_header_not_from_environment :
  import_BASE64_AUTH [("BASE64_AUTH", "Basic c2VjcmV0")] =
    Ok "Basic c2VjcmV0" /\
  map (fun r => assoc "authorization" (headers r))
      (sent (outside (snd (get_token
         (fresh "Basic b3RoZXI=" true (world_of [] (serving demo_feed)))))))
  = [Some "Basic b3RoZXI="] /\
  "Basic b3RoZXI=" <> "Basic c2VjcmV0".
Proof.
  split; [reflexivity | split; [reflexivity | discriminate]].
Qed.

(** A token response without a token makes [get_token] raise, and the
    exception is the one of the step that failed. *)
Lemma get_token_raises st :
  no_token (server (outside st) (token_request (self st))) ->
  exists e,
    fst (get_token st) = Raise e /\
    access_token (self (snd (get_token st))) = access_token (self st) /\
    match server (outside st) (token_request (self st)) with
    | Failed e' => e = e'
    | Response None => e = ValueError
    | Response (Some (JObj _)) => e = KeyError
    | Response (Some _) => e = TypeError
    end.
Proof.
  unfold get_token, requests_request, response_json, assign, print, lift,
    bind, get_world, set_world, get_self, set_self, raise, ret; cbn.
  destruct (server (outside st) _) as [e' | [v | ]]; cbn; intros H.
  - exists e'. repeat split.
  - destruct (subscript v "access_token") as [token | e] eqn:E.
    + exfalso. apply (H token). reflexivity.
    + exists e. repeat split.
      destruct v; cbn in E; try (inversion E; reflexivity).
      destruct (assoc "access_token" members); inversion E; reflexivity.
  - exists ValueError. repeat split.
Qed.

(** ** The order of names and [sorted(..., reverse=True)] *)

Lemma compare_as_OT a b : String.compare a b = String_as_OT.compare a b.
Proof.
  revert b. induction a as [ | x a IH]; intros [ | y b]; cbn; reflexivity.
Qed.

Lemma leb_iff a b :
  String.leb a b = true <-> a = b \/ String_as_OT.lt a b.
Proof.
  unfold String.leb, String_as_OT.lt. rewrite compare_as_OT.
  destruct (String_as_OT.compare_spec a b) as [E | L | G].
  - split; [left; exact E | reflexivity].
  - split; [right; reflexivity | reflexivity].
  - split; [discriminate | ].
    intros [E | L]; exfalso.
    + subst b. exact (irreflexivity G).
    + discriminate L.
Qed.

Lemma leb_refl a : String.leb a a = true.
Proof. apply leb_iff. left. reflexivity. Qed.

Lemma leb_trans a b c :
  String.leb a b = true -> String.leb b c = true -> String.leb a c = true.
Proof.
  rewrite !leb_iff. intros [-> | Hab] [-> | Hbc]; auto.
  right. exact (transitivity Hab Hbc).
Qed.

Lemma leb_false_flip a b : String.leb a b = false -> String.leb b a = true.
Proof.
  intros H. destruct (String.leb_total a b) as [T | T]; [congruence | exact T].
Qed.

Lemma insert_desc_In x y l : In y (insert_desc x l) <-> y = x \/ In y l.
Proof.
  induction l as [ | z l IH]; cbn.
  - intuition congruence.
  - destruct (String.leb z x); cbn; [intuition congruence | ].
    rewrite IH. intuition.
Qed.

Lemma insert_desc_descending x l : descending l -> descending (insert_desc x l).
Proof.
  unfold descending. induction l as [ | z l IH]; cbn; intros S.
  - constructor; constructor.
  - destruct (String.leb z x) eqn:E.
    + constructor; [exact S | ].
      constructor; [exact E | ].
      apply StronglySorted_inv in S. destruct S as [_ F].
      rewrite Forall_forall in *. intros y Hy.
      apply (leb_trans y z x); [apply F; exact Hy | exact E].
    + apply StronglySorted_inv in S. destruct S as [S F].
      constructor; [apply IH; exact S | ].
      rewrite Forall_forall in *. intros y Hy.
      apply insert_desc_In in Hy. destruct Hy as [-> | Hy].
      * apply leb_false_flip. exact E.
      * apply F. exact Hy.
Qed.

Lemma sorted_reverse_In y l : In y (sorted_reverse l) <-> In y l.
Proof.
  induction l as [ | x l IH]; cbn; [tauto | ].
  rewrite insert_desc_In, IH. intuition congruence.
Qed.

Lemma sorted_reverse_descending l : descending (sorted_reverse l).
Proof.
  induction l as [ | x l IH]; cbn.
  - constructor.
  - apply insert_desc_descending. exact IH.
Qed.

(** The first element of [sorted(names, reverse=True)] is an element of
    [names] that no element exceeds; there is one as soon as [names] is
    not empty. *)
Lemma sorted_reverse_first names :
  names <> [] ->
  exists latest rest,
    sorted_reverse names = latest :: rest /\
    In latest names /\
    forall n, In n names -> String.leb n latest = true.
Proof.
  intros NE.
  destruct (sorted_reverse names) as [ | latest rest] eqn:E.
  - exfalso. destruct names as [ | x names]; [apply NE; reflexivity | ].
    assert (H : In x (sorted_reverse (x :: names)))
      by (apply sorted_reverse_In; left; reflexivity).
    rewrite E in H. exact H.
  - exists latest, rest. split; [reflexivity | ].
    assert (S := sorted_reverse_descending names). rewrite E in S.
    split.
    + apply sorted_reverse_In. rewrite E. left. reflexivity.
    + intros n Hn. apply sorted_reverse_In in Hn. rewrite E in Hn.
      destruct Hn as [<- | Hn]; [apply leb_refl | ].
      apply StronglySorted_inv in S. destruct S as [_ F].
      rewrite Forall_forall in F. apply F. exact Hn.
Qed.

(** ** Reloading a snapshot *)

Ltac unfold_monad :=
  unfold pd_read_csv, assign, print, lift, bind, get_world, set_world,
    get_self, set_self, raise, ret; cbn.

(** Once the listing of ['data'] is known, [read_record] reads the three
    files under its first name in descending order, and succeeds exactly
    when the three of them load. *)
Lemma read_record_reads infer st names latest rest :
  os_listdir ["data"] (cwd (outside st)) = Ok names ->
  sorted_reverse names = latest :: rest ->
  (forall tp ts tw,
     load_csv infer ["data"; latest; "prices.csv"] (cwd (outside st)) = Ok tp ->
     load_csv infer ["data"; latest; "stations.csv"] (cwd (outside st)) = Ok ts ->
     load_csv infer ["data"; latest; "combined.csv"] (cwd (outside st)) = Ok tw ->
     fst (read_record infer st) = Ok tt /\
     prices_df (self (snd (read_record infer st))) = Frame tp /\
     stations_df (self (snd (read_record infer st))) = Frame ts /\
     working_df (self (snd (read_record infer st))) = Frame tw) /\
  (fst (read_record infer st) = Ok tt ->
   exists tp ts tw,
     load_csv infer ["data"; latest; "prices.csv"] (cwd (outside st)) = Ok tp /\
     load_csv infer ["data"; latest; "stations.csv"] (cwd (outside st)) = Ok ts /\
     load_csv infer ["data"; latest; "combined.csv"] (cwd (outside st)) = Ok tw).
Proof.
  intros L S. unfold read_record. unfold_monad. rewrite L. cbn. rewrite S. cbn.
  split.
  - intros tp ts tw -> -> ->. cbn. repeat split.
  - destruct (load_csv infer ["data"; latest; "prices.csv"] _) as [tp | e]; cbn;
      [ | discriminate].
    destruct (load_csv infer ["data"; latest; "stations.csv"] _) as [ts | e]; cbn;
      [ | discriminate].
    destruct (load_csv infer ["data"; latest; "combined.csv"] _) as [tw | e]; cbn;
      [ | discriminate].
    intros _. exists tp, ts, tw. repeat split.
Qed.

(** C6. When the listing of ['data'] is not empty, [read_record] loads
    the three CSV files from the entry of that listing that is greatest
    in the order of strings: the entry [latest] is in the listing, no
    entry exceeds it, and the three frames of the object are what
    [read_csv] makes of [data/latest/prices.csv], [stations.csv] and
    [combined.csv] (the call succeeds exactly when these three load). *)
Theorem read_record_loads_greatest_entry infer st names :
  os_listdir ["data"] (cwd (outside st)) = Ok names ->
  names <> [] ->
  exists latest,
    In latest names /\
    (forall n, In n names -> String.leb n latest = true) /\
    (forall tp ts tw,
       load_csv infer ["data"; latest; "prices.csv"] (cwd (outside st)) = Ok tp ->
       load_csv infer ["data"; latest; "stations.csv"] (cwd (outside st)) = Ok ts ->
       load_csv infer ["data"; latest; "combined.csv"] (cwd (outside st)) = Ok tw ->
       fst (read_record infer st) = Ok tt /\
       prices_df (self (snd (read_record infer st))) = Frame tp /\
       stations_df (self (snd (read_record infer st))) = Frame ts /\
       working_df (self (snd (read_record infer st))) = Frame tw) /\
    (fst (read_record infer st) = Ok tt ->
     exists tp ts tw,
       load_csv infer ["data"; latest; "prices.csv"] (cwd (outside st)) = Ok tp /\
       load_csv infer ["data"; latest; "stations.csv"] (cwd (outside st)) = Ok ts /\
       load_csv infer ["data"; latest; "combined.csv"] (cwd (outside st)) = Ok tw).
Proof.
  intros L NE.
  destruct (sorted_reverse_first names NE) as [latest [rest [S [I G]]]].
  exists latest. split; [exact I | split; [exact G | ]].
  exact (read_record_reads infer st names latest rest L S).
Qed.

(** A missing ['data'] directory and an empty one both make
    [read_record] raise. *)
Lemma read_record_raises infer st :
  (os_path_exists ["data"] (cwd (outside st)) = false ->
   fst (read_record infer st) = Raise FileNotFoundError) /\
  (os_listdir ["data"] (cwd (outside st)) = Ok [] ->
   fst (read_record infer st) = Raise IndexError).
Proof.
  unfold read_record, os_path_exists, os_listdir. unfold_monad.
  destruct (assoc "data" (cwd (outside st))) as [[doc | es] | ]; cbn; split;
    try discriminate; try reflexivity.
  intros H. injection H as H. rewrite H. reflexivity.
Qed.

(** C8. Outside the guarded fetch nothing is caught. A token response
    that is missing or malformed (the request fails, its body is not
    JSON, or the decoded body has no ['access_token'] to look up) makes
    [get_token] raise, with [KeyError] or [TypeError] when it is the key
    lookup that fails, and leaves [access_token] as it was; a missing
    ['data'] directory makes [read_record] raise [FileNotFoundError],
    and one without entries makes it raise [IndexError]. *)
Theorem unguarded_failures_raise :
  (forall st,
     no_token (server (outside st) (token_request (self st))) ->
     exists e,
       fst (get_token st) = Raise e /\
       access_token (self (snd (get_token st))) = access_token (self st) /\
       match server (outside st) (token_request (self st)) with
       | Failed e' => e = e'
       | Response None => e = ValueError
       | Response (Some (JObj _)) => e = KeyError
       | Response (Some _) => e = TypeError
       end) /\
  (forall infer st,
     os_path_exists ["data"] (cwd (outside st)) = false ->
     fst (read_record infer st) = Raise FileNotFoundError) /\
  (forall infer st,
     os_listdir ["data"] (cwd (outside st)) = Ok [] ->
     fst (read_record infer st) = Raise IndexError).
Proof.
  split; [exact get_token_raises | split].
  - intros infer st. apply read_record_raises.
  - intros infer st. apply read_record_raises.
Qed.

Lemma unguarded_failures_raise_witness :
  (exists e,
     fst (get_token (fresh "Basic abc" true
            (world_of [] (fun _ => Response (Some (JObj [("error", JStr "denied")]))))))
       = Raise e /\ e = KeyError) /\
  fst (read_record infer_plain (fresh "Basic abc" false (world_of [] unreachable)))
    = Raise FileNotFoundError /\
  fst (read_record infer_plain
         (fresh "Basic abc" false (world_of [("data", Dir [])] unreachable)))
    = Raise IndexError.
Proof.
  destruct unguarded_failures_raise as [T [D E]].
  split; [ | split].
  - destruct (T (fresh "Basic abc" true
            (world_of [] (fun _ => Response (Some (JObj [("error", JStr "denied")]))))))
      as [e [H1 [_ H2]]].
    + cbn. intros token. discriminate.
    + exists e. split; [exact H1 | exact H2].
  - apply D. reflexivity.
  - apply E. reflexivity.
Defined.

(** ** The station table and its code column *)

Lemma astype_int64_spec cells out :
  astype_int64 cells = Ok out ->
  Forall is_int64 out /\ List.length out = List.length cells.
Proof.
  revert out. induction cells as [ | v cells IH]; cbn; intros out H.
  - injection H as <-. split; [constructor | reflexivity].
  - destruct (to_int64 v) as [z | e] eqn:V; [ | discriminate].
    destruct (astype_int64 cells) as [zs | e]; [ | discriminate].
    injection H as <-. destruct (IH zs eq_refl) as [F L].
    split; [ | cbn; congruence].
    constructor; [ | exact F].
    destruct v as [ | b | z' | lit | s | items | members]; cbn in V;
      try discriminate.
    + destruct b; injection V as <-; reflexivity.
    + destruct (in_int64 z') eqn:R; [ | discriminate].
      injection V as <-. exact R.
    + destruct (trunc_of_float lit) as [z' | ].
      * destruct (in_int64 z') eqn:R; [ | discriminate].
        injection V as <-. exact R.
      * destruct (String.eqb lit "nan"); discriminate.
    + destruct (int_of_text s) as [z' | ]; [ | discriminate].
      destruct (in_int64 z') eqn:R; [ | discriminate].
      injection V as <-. exact R.
Qed.

Lemma cell_set_nth j v r :
  j < List.length r -> cell j (set_nth j v r) = v.
Proof.
  unfold cell. revert r. induction j as [ | j IH]; intros [ | x r]; cbn;
    intros H; try lia; [reflexivity | apply IH; lia].
Qed.

Lemma column_set_column j cells rs :
  List.length cells = List.length rs ->
  Forall (fun r => j < List.length r) rs ->
  map (cell j) (set_column j cells rs) = cells.
Proof.
  revert rs. induction cells as [ | v cells IH]; intros [ | r rs]; cbn;
    intros L F; try discriminate; [reflexivity | ].
  inversion F as [ | r' rs' Hr Hrs]; subst.
  rewrite cell_set_nth by exact Hr. f_equal. apply IH; [lia | exact Hrs].
Qed.

Lemma length_pad_to n r :
  List.length (pad_to n r) = Nat.max n (List.length r).
Proof.
  revert r. induction n as [ | n IH]; intros r; cbn; [reflexivity | ].
  destruct r as [ | v r]; cbn; rewrite IH; cbn; lia.
Qed.

(** The rows of a frame built from lists have the width of its labels. *)
Lemma DataFrame_width data names t :
  DataFrame data names = Ok t ->
  columns t = names /\
  Forall (fun r => List.length r = List.length names) (rows t).
Proof.
  unfold DataFrame. destruct data as [ | d data].
  - intros H. injection H as <-. split; [reflexivity | constructor].
  - remember (d :: data) as all.
    destruct (Nat.eqb _ _) eqn:W; [ | discriminate].
    intros H. injection H as <-. cbn. split; [reflexivity | ].
    apply Nat.eqb_eq in W. rewrite <- W.
    rewrite Forall_forall. intros r Hr. apply in_map_iff in Hr.
    destruct Hr as [r0 [<- Hr0]]. rewrite length_pad_to.
    assert (List.length r0 <= list_max (map (@List.length json) all)).
    { assert (F := proj1 (list_max_le (map (@List.length json) all) _)
                     (Nat.le_refl _)).
      rewrite Forall_forall in F. apply F. apply in_map. exact Hr0. }
    lia.
Qed.

Lemma lift_inv {A : Type} (o : outcome A) st a st' :
  lift o st = (Ok a, st') -> o = Ok a /\ st' = st.
Proof. unfold lift. intros H. injection H as -> ->. split; reflexivity. Qed.

(** Peels the first step off a successful sequence [H]: [x] is what the
    step returned and [Hx] says so. *)
Ltac step H x Hx :=
  let st1 := fresh "st" in
  apply bind_inv in H; destruct H as [x [st1 [Hx H]]].

(** The same for a step that returns nothing. *)
Ltac step_unit H Hx :=
  let u := fresh "u" in
  step H u Hx; destruct u.

(** The same for a step that only prints. *)
Ltac step_print H :=
  let u := fresh "u" in
  let Hu := fresh "Hu" in
  step H u Hu; rewrite print_spec in Hu; injection Hu as _ <-.

(** The same for a pure library call. *)
Ltac step_lift H x Hx :=
  step H x Hx; apply lift_inv in Hx;
  let E := fresh "E" in destruct Hx as [Hx E]; subst.

(** What a successful [create_station_list] stores: a frame under the
    nine station labels whose ['code'] column, the fourth, holds 64-bit
    integers only. Nothing else changes in the object. *)
Lemma create_station_list_spec st st' :
  create_station_list st = (Ok tt, st') ->
  exists df,
    self st' = set_stations_df (Frame df) (self st) /\
    columns df = station_columns /\
    Forall is_int64 (column 3 df).
Proof.
  unfold create_station_list. intros H.
  step_print H.
  step H o Ho. injection Ho as <- <-.
  step_lift H stations Hstations.
  step_lift H items Hitems.
  step_lift H data Hdata.
  step_lift H df0 Hdf0.
  step_lift H df Hdf.
  unfold assign, bind, get_self, set_self in H. cbn in H.
  injection H as <-. cbn.
  exists df. split; [reflexivity | ].
  apply DataFrame_width in Hdf0. destruct Hdf0 as [C W].
  unfold astype_column in Hdf. rewrite C in Hdf. cbn in Hdf.
  destruct (astype_int64 (column 3 df0)) as [cells | e] eqn:A; [ | discriminate].
  injection Hdf as <-. cbn. split; [reflexivity | ].
  apply astype_int64_spec in A. destruct A as [F L].
  unfold column. cbn. rewrite column_set_column; [exact F | | ].
  - rewrite L. unfold column. apply length_map.
  - eapply Forall_impl; [ | exact W]. cbn. intros r ->. lia.
Qed.

Lemma build_working_df_spec st st' :
  build_working_df st = (Ok tt, st') ->
  exists s p w,
    stations_df (self st) = Frame s /\
    prices_df (self st) = Frame p /\
    merge_right s p "code" "stationcode" = Ok w /\
    self st' = set_working_df (Frame w) (self st).
Proof.
  unfold build_working_df. intros H.
  step_print H.
  step H o Ho. injection Ho as <- <-.
  step_lift H lhs Hlhs.
  step_lift H rhs Hrhs.
  step_lift H w Hw.
  unfold assign, bind, get_self, set_self in H. cbn in H.
  injection H as <-. cbn in *.
  destruct (stations_df (self st)) as [ | | s]; cbn in Hlhs;
    destruct (prices_df (self st)) as [ | | p]; cbn in Hrhs;
    try discriminate; injection Hlhs as <-; injection Hrhs as <-;
    try discriminate.
  exists s, p, w. repeat split. exact Hw.
Qed.


(** ** The row count of the right join *)

Section RightJoinCount.
Context {L R O : Type}.
Variable matches : L -> R -> bool.
Variable paired : L -> R -> O.
Variable unpaired : R -> O.

Lemma length_join_row left r :
  List.length (join_row matches paired unpaired left r) =
  Nat.max 1 (List.length (filter (fun l => matches l r) left)).
Proof.
  unfold join_row. destruct (filter _ left) as [ | m ms] eqn:E.
  - reflexivity.
  - rewrite length_map. cbn. lia.
Qed.

(** Every row of the right frame gives at least one row. *)
Lemma right_join_at_least left right :
  List.length right <=
  List.length (right_join matches paired unpaired left right).
Proof.
  unfold right_join. induction right as [ | r right IH]; cbn; [lia | ].
  rewrite length_app, length_join_row. lia.
Qed.

(** It gives exactly one when at most one left row matches it. *)
Lemma right_join_exact left right :
  (forall r, In r right ->
             List.length (filter (fun l => matches l r) left) <= 1) ->
  List.length (right_join matches paired unpaired left right) =
  List.length right.
Proof.
  unfold right_join. induction right as [ | r right IH]; cbn; intros U;
    [reflexivity | ].
  rewrite length_app, length_join_row, IH.
  - specialize (U r (or_introl eq_refl)). lia.
  - intros r' Hr'. apply U. right. exact Hr'.
Qed.

(** And a right row with two matches makes the join longer. *)
Lemma right_join_longer left right r :
  In r right ->
  2 <= List.length (filter (fun l => matches l r) left) ->
  List.length right <
  List.length (right_join matches paired unpaired left right).
Proof.
  unfold right_join. induction right as [ | r' right IH]; cbn;
    intros I T; [contradiction | ].
  rewrite length_app, length_join_row.
  destruct I as [-> | I].
  - pose proof (right_join_at_least left right) as G.
    unfold right_join in G. lia.
  - specialize (IH I T). lia.
Qed.
End RightJoinCount.

Lemma key_index_Ok name names j :
  key_index name names = Ok j -> index_of name names = Some j.
Proof.
  unfold key_index. destruct (index_of name names) as [i | ]; [ | discriminate].
  destruct (Nat.eqb _ 1); [ | discriminate]. intros H. injection H as <-.
  reflexivity.
Qed.

(** The rows of a merge, through [stations_matching]. *)
Lemma merge_right_rows s p w :
  merge_right s p "code" "stationcode" = Ok w ->
  rows w =
  right_join (fun l r => key_eqb (cell_of "code" s l) (cell_of "stationcode" p r))
             (fun l r => l ++ r)
             (fun r => repeat JNull (List.length (columns s)) ++ r)
             (rows s) (rows p).
Proof.
  unfold merge_right, cell_of.
  destruct (key_index "code" (columns s)) as [li | e] eqn:Kl; [ | discriminate].
  destruct (key_index "stationcode" (columns p)) as [ri | e] eqn:Kr;
    [ | discriminate].
  apply key_index_Ok in Kl, Kr. rewrite Kl, Kr.
  intros H. injection H as <-. reflexivity.
Qed.


(** Matching keys are equal cells. *)
Lemma key_eqb_eq a b : key_eqb a b = true -> a = b.
Proof.
  destruct a, b; cbn; intros H; try discriminate; try reflexivity.
  - apply Bool.eqb_prop in H. congruence.
  - apply Z.eqb_eq in H. congruence.
  - apply String.eqb_eq in H. congruence.
  - apply String.eqb_eq in H. congruence.
Qed.

(** Stations whose codes are pairwise distinct match every price at
    most once. *)
Lemma distinct_codes_match_once s p r :
  NoDup (map (cell_of "code" s) (rows s)) ->
  List.length (stations_matching s p r) <= 1.
Proof.
  unfold stations_matching. generalize (cell_of "stationcode" p r) as k.
  intros k. induction (rows s) as [ | l ls IH]; cbn; intros N; [lia | ].
  inversion N as [ | x xs Hnot Hrest]; subst.
  destruct (key_eqb (cell_of "code" s l) k) eqn:E.
  - cbn. apply key_eqb_eq in E.
    assert (Z : filter (fun l0 => key_eqb (cell_of "code" s l0) k) ls = []).
    { destruct (filter _ ls) as [ | m ms] eqn:F; [reflexivity | exfalso].
      assert (Hm : In m (filter (fun l0 => key_eqb (cell_of "code" s l0) k) ls))
        by (rewrite F; left; reflexivity).
      apply filter_In in Hm. destruct Hm as [Hin Hk].
      apply key_eqb_eq in Hk. apply Hnot. rewrite E, <- Hk.
      apply in_map. exact Hin. }
    rewrite Z. cbn. lia.
  - apply IH. exact Hrest.
Qed.




(** ** Writing a frame and reading it back *)

Lemma length_indexed_from {A : Type} i (l : list A) :
  List.length (indexed_from i l) = List.length l.
Proof.
  revert i. induction l as [ | x l IH]; intros i; cbn; [reflexivity | ].
  rewrite IH. reflexivity.
Qed.

(** What [read_csv(index_col=False)] makes of a file written by
    [to_csv(index=True)]: the index comes back as a data column named
    ["Unnamed: 0"], before the columns that were saved. *)
Lemma read_back_shape infer t t' :
  read_csv infer (to_csv t) = Ok t' ->
  hd_error (columns t') = Some "Unnamed: 0" /\
  List.length (columns t') = S (List.length (columns t)) /\
  nrows t' = nrows t.
Proof.
  unfold read_csv, to_csv.
  destruct (has_dup _); [discriminate | ].
  destruct (forallb _ _); [ | discriminate].
  intros H. injection H as <-. unfold nrows, header_names. cbn.
  rewrite !length_map, !length_indexed_from. repeat split.
Qed.

Lemma read_back_differs infer t : read_csv infer (to_csv t) <> Ok t.
Proof.
  intros H. apply read_back_shape in H. destruct H as [_ [H _]]. lia.
Qed.

(** C1 fails on the code. No frame comes back as it was saved: the
    reloaded frame has one column more, the index written by
    [to_csv(index=True)], which [read_csv(index_col=False)] reads as the
    data column ["Unnamed: 0"]. On the worked feed the three frames of
    an update run have 9, 3 and 12 columns, and the three frames a
    second object reloads from that snapshot have 10, 4 and 13. *)
Theorem reload_adds_the_index_column :
  (forall infer t, read_csv infer (to_csv t) <> Ok t) /\
  (forall infer t,
     match read_csv infer (to_csv t) with
     | Ok t' => hd_error (columns t') = Some "Unnamed: 0" /\
                List.length (columns t') = S (List.length (columns t)) /\
                nrows t' = nrows t
     | Raise _ => True
     end) /\
  slot_columns (stations_df (self (after_update demo_feed))) =
    Some station_columns /\
  slot_columns (stations_df (self (after_reload demo_feed))) =
    Some ("Unnamed: 0" :: station_columns) /\
  slot_columns (prices_df (self (after_update demo_feed))) =
    Some ["stationcode"; "fueltype"; "price"] /\
  slot_columns (prices_df (self (after_reload demo_feed))) =
    Some ["Unnamed: 0"; "stationcode"; "fueltype"; "price"] /\
  slot_columns (working_df (self (after_update demo_feed))) =
    Some (station_columns ++ ["stationcode"; "fueltype"; "price"]) /\
  slot_columns (working_df (self (after_reload demo_feed))) =
    Some ("Unnamed: 0" :: station_columns ++ ["stationcode"; "fueltype"; "price"]).
Proof.
  split; [exact read_back_differs | split].
  - intros infer t. destruct (read_csv infer (to_csv t)) as [t' | e] eqn:E;
      [ | exact I].
    apply (read_back_shape infer t t' E).
  - vm_compute. repeat split.
Qed.

(** ** The working directory *)

Lemma assoc_set_same {A : Type} k (v : A) l : assoc k (assoc_set k v l) = Some v.
Proof.
  induction l as [ | [k' v'] l IH]; cbn.
  - rewrite String.eqb_refl. reflexivity.
  - destruct (String.eqb k k') eqn:E; cbn.
    + rewrite String.eqb_refl. reflexivity.
    + rewrite E. exact IH.
Qed.

Lemma assoc_set_other {A : Type} k k' (v : A) l :
  k' <> k -> assoc k' (assoc_set k v l) = assoc k' l.
Proof.
  intros N. induction l as [ | [k0 v0] l IH]; cbn.
  - apply String.eqb_neq in N. rewrite N. reflexivity.
  - destruct (String.eqb k k0) eqn:E; cbn.
    + apply String.eqb_eq in E. subst k0.
      apply String.eqb_neq in N. rewrite N. reflexivity.
    + destruct (String.eqb k' k0); [reflexivity | exact IH].
Qed.

Lemma stat_nil es : stat [] es = Directory.
Proof. reflexivity. Qed.

Lemma stat_cons c q es :
  stat (c :: q) es =
  match assoc c es with
  | None => Nothing
  | Some (Dir sub) => stat q sub
  | Some (File doc) => match q with [] => Regular doc | _ :: _ => Nothing end
  end.
Proof.
  unfold stat. cbn. destruct (assoc c es) as [[doc | sub] | ]; try reflexivity.
  destruct q; reflexivity.
Qed.

(** Below a leaf there is nothing. *)
Lemma stat_below_leaf c q es o :
  assoc c es = o -> leaf_opt o -> q <> [] -> stat (c :: q) es = Nothing.
Proof.
  intros E Lf N. rewrite stat_cons, E.
  destruct o as [[doc | sub] | ]; cbn in Lf.
  - destruct q; [contradiction | reflexivity].
  - subst sub. destruct q as [ | x q]; [contradiction | reflexivity].
  - reflexivity.
Qed.

Section Update.
Variable change : option node -> outcome node.
Hypothesis change_leaves :
  forall old new, change old = Ok new -> leaf_opt old /\ leaf new.

(** A successful [update] at [p] leaves every other path as it was. *)
Lemma stat_update_other p : forall es es' q,
  update p change es = Ok es' -> q <> p -> stat q es' = stat q es.
Proof.
  induction p as [ | c p IH]; intros es es' q U N; [discriminate | ].
  cbn in U. destruct p as [ | c2 p2].
  - destruct (change (assoc c es)) as [new | e] eqn:C; [ | discriminate].
    injection U as <-. destruct (change_leaves _ _ C) as [Lo Ln].
    destruct q as [ | c' q]; [reflexivity | ].
    destruct (String.eqb_spec c' c) as [-> | D].
    + assert (Q : q <> []) by (intros ->; apply N; reflexivity).
      rewrite (stat_below_leaf c q _ (Some new) (assoc_set_same _ _ _) Ln Q).
      rewrite (stat_below_leaf c q _ _ eq_refl Lo Q). reflexivity.
    + rewrite !stat_cons, assoc_set_other by exact D. reflexivity.
  - destruct (assoc c es) as [[doc | sub] | ] eqn:A; try discriminate.
    destruct (update (c2 :: p2) change sub) as [new | e] eqn:U'; [ | discriminate].
    injection U as <-.
    destruct q as [ | c' q]; [reflexivity | ].
    destruct (String.eqb_spec c' c) as [-> | D].
    + rewrite !stat_cons, assoc_set_same, A.
      apply (IH sub new q U'). intros ->. apply N. reflexivity.
    + rewrite !stat_cons, assoc_set_other by exact D. reflexivity.
Qed.

(** At [p] itself, [change] was applied to what was there. *)
Lemma stat_update_at p : forall es es',
  update p change es = Ok es' ->
  exists old new,
    change old = Ok new /\
    stat p es = kind_of_opt old /\ stat p es' = kind_of new.
Proof.
  induction p as [ | c p IH]; intros es es' U; [discriminate | ].
  cbn in U. destruct p as [ | c2 p2].
  - destruct (change (assoc c es)) as [new | e] eqn:C; [ | discriminate].
    injection U as <-. exists (assoc c es), new.
    split; [exact C | ]. rewrite !stat_cons, assoc_set_same.
    split.
    + destruct (assoc c es) as [[doc | sub] | ]; reflexivity.
    + destruct new; reflexivity.
  - destruct (assoc c es) as [[doc | sub] | ] eqn:A; try discriminate.
    destruct (update (c2 :: p2) change sub) as [new | e] eqn:U'; [ | discriminate].
    injection U as <-.
    destruct (IH sub new U') as [old [n [C [S1 S2]]]].
    exists old, n. split; [exact C | ].
    rewrite !stat_cons, assoc_set_same, A. split; assumption.
Qed.
End Update.

(** [os.mkdir(p)] turns nothing into a directory at [p], and that only. *)
Lemma os_mkdir_stat p es es' :
  os_mkdir p es = Ok es' ->
  stat p es = Nothing /\ stat p es' = Directory /\
  forall q, q <> p -> stat q es' = stat q es.
Proof.
  unfold os_mkdir. intros U.
  assert (Lf : forall old new,
             match old with
             | None => Ok (Dir [])
             | Some _ => Raise FileExistsError
             end = Ok new -> leaf_opt old /\ leaf new).
  { intros [n | ] new H; [discriminate | ]. injection H as <-.
    split; [exact I | reflexivity]. }
  split; [ | split].
  - destruct (stat_update_at _ p es es' U) as [[n | ] [new [C [S1 _]]]];
      [discriminate | exact S1].
  - destruct (stat_update_at _ p es es' U) as [[n | ] [new [C [_ S2]]]];
      [discriminate | ]. injection C as <-. exact S2.
  - intros q N. exact (stat_update_other _ Lf p es es' q U N).
Qed.

(** Writing [doc] to [p] makes [p] a file with these records, and
    touches nothing else; there was no directory at [p]. *)
Lemma write_file_stat p doc es es' :
  write_file p doc es = Ok es' ->
  stat p es <> Directory /\ stat p es' = Regular doc /\
  forall q, q <> p -> stat q es' = stat q es.
Proof.
  unfold write_file. intros U.
  assert (Lf : forall old new,
             match old with
             | Some (Dir _) => Raise IsADirectoryError
             | _ => Ok (File doc)
             end = Ok new -> leaf_opt old /\ leaf new).
  { intros [[d | sub] | ] new H; try discriminate; injection H as <-;
      split; exact I. }
  destruct (stat_update_at _ p es es' U) as [old [new [C [S1 S2]]]].
  split; [ | split].
  - rewrite S1. destruct old as [[d | sub] | ]; cbn; discriminate.
  - rewrite S2. destruct old as [[d | sub] | ]; try discriminate;
      injection C as <-; reflexivity.
  - intros q N. exact (stat_update_other _ Lf p es es' q U N).
Qed.

Lemma os_path_exists_stat p es :
  os_path_exists p es = negb (match stat p es with Nothing => true | _ => false end).
Proof.
  unfold os_path_exists, stat. destruct (resolve p es) as [[doc | sub] | e];
    reflexivity.
Qed.

Lemma stat_parent d c es :
  stat (d ++ [c]) es <> Nothing -> stat d es = Directory.
Proof.
  revert es. induction d as [ | x d IH]; intros es H; [reflexivity | ].
  cbn [app] in H. rewrite stat_cons in *.
  destruct (assoc x es) as [[doc | sub] | ].
  - destruct d; cbn in H; contradiction.
  - apply IH. exact H.
  - contradiction.
Qed.

(** ** Exporting a snapshot *)

Lemma path_exists_spec p st b st' :
  path_exists p st = (Ok b, st') ->
  b = os_path_exists p (cwd (outside st)) /\ st' = st.
Proof.
  unfold path_exists, bind, get_world, ret. intros H.
  injection H as <- <-. split; reflexivity.
Qed.

Lemma mkdir_spec p st st' :
  mkdir p st = (Ok tt, st') ->
  os_mkdir p (cwd (outside st)) = Ok (cwd (outside st')) /\
  self st' = self st /\ now (outside st') = now (outside st).
Proof.
  unfold mkdir. intros H.
  step H w Hw. injection Hw as <- <-.
  step_lift H root Hroot.
  injection H as <-. cbn. repeat split. exact Hroot.
Qed.

Lemma df_to_csv_spec s p st st' :
  df_to_csv s p st = (Ok tt, st') ->
  exists t,
    s = Frame t /\
    write_file p (to_csv t) (cwd (outside st)) = Ok (cwd (outside st')) /\
    self st' = self st /\ now (outside st') = now (outside st).
Proof.
  unfold df_to_csv. intros H.
  step H t Ht. destruct s as [ | | t0]; try discriminate.
  injection Ht as <- <-.
  step H w Hw. injection Hw as <- <-.
  step_lift H root Hroot.
  injection H as <-. cbn. exists t0. repeat split. exact Hroot.
Qed.

Lemma snapshot_paths_differ (d : path) (a b : string) :
  a <> b -> d ++ [a] <> d ++ [b].
Proof.
  intros N E. apply app_inv_head in E. injection E as E. exact (N E).
Qed.

(** A successful [save_as_csv(d)] writes the three frames of the object
    to the three files of [d], and nothing else. *)
Lemma save_as_csv_spec d st st' :
  save_as_csv d st = (Ok tt, st') ->
  exists s p w,
    stations_df (self st) = Frame s /\
    prices_df (self st) = Frame p /\
    working_df (self st) = Frame w /\
    stat (d ++ ["stations.csv"]) (cwd (outside st')) = Regular (to_csv s) /\
    stat (d ++ ["prices.csv"]) (cwd (outside st')) = Regular (to_csv p) /\
    stat (d ++ ["combined.csv"]) (cwd (outside st')) = Regular (to_csv w) /\
    (forall q, ~ In q (snapshot_files d) ->
               stat q (cwd (outside st')) = stat q (cwd (outside st))) /\
    self st' = self st /\ now (outside st') = now (outside st).
Proof.
  unfold save_as_csv. intros H.
  step H o Ho. injection Ho as <- <-.
  step_unit H H1. apply df_to_csv_spec in H1.
  destruct H1 as [s [Es [W1 [S1 N1]]]].
  step_unit H H2. apply df_to_csv_spec in H2.
  destruct H2 as [p [Ep [W2 [S2 N2]]]].
  step_unit H H3. apply df_to_csv_spec in H3.
  destruct H3 as [w [Ew [W3 [S3 N3]]]].
  rewrite print_spec in H. injection H as <-. cbn.
  apply write_file_stat in W1, W2, W3.
  destruct W1 as [_ [A1 O1]], W2 as [_ [A2 O2]], W3 as [_ [A3 O3]].
  exists s, p, w. repeat split; try assumption; try congruence.
  - rewrite O3, O2; [exact A1 | | ]; apply snapshot_paths_differ; discriminate.
  - rewrite O3; [exact A2 | ]. apply snapshot_paths_differ; discriminate.
  - intros q Hq. unfold snapshot_files in Hq. cbn in Hq.
    rewrite O3, O2, O1; [reflexivity | | | ]; intros ->; apply Hq; tauto.
Qed.

Lemma not_a_snapshot_file (d : path) : ~ In d (snapshot_files d).
Proof.
  unfold snapshot_files. cbn. intros [E | [E | [E | []]]];
    apply (f_equal (@List.length string)) in E; rewrite length_app in E;
    cbn in E; lia.
Qed.

(** The same through [check_folder(d)], which first creates [d] when it
    is not there. *)
Lemma check_folder_spec d st st' :
  check_folder d st = (Ok tt, st') ->
  exists s p w,
    stations_df (self st) = Frame s /\
    prices_df (self st) = Frame p /\
    working_df (self st) = Frame w /\
    stat (d ++ ["stations.csv"]) (cwd (outside st')) = Regular (to_csv s) /\
    stat (d ++ ["prices.csv"]) (cwd (outside st')) = Regular (to_csv p) /\
    stat (d ++ ["combined.csv"]) (cwd (outside st')) = Regular (to_csv w) /\
    stat d (cwd (outside st')) = Directory /\
    (stat d (cwd (outside st)) = Directory \/
     stat d (cwd (outside st)) = Nothing) /\
    (forall q, ~ In q (d :: snapshot_files d) ->
               stat q (cwd (outside st')) = stat q (cwd (outside st))) /\
    self st' = self st /\ now (outside st') = now (outside st).
Proof.
  unfold check_folder. intros H.
  step H present Hp. apply path_exists_spec in Hp. destruct Hp as [-> ->].
  destruct (os_path_exists d (cwd (outside st))) eqn:X.
  - apply save_as_csv_spec in H.
    destruct H as [s [p [w [Es [Ep [Ew [A1 [A2 [A3 [O [Sf Nw]]]]]]]]]]].
    assert (D : stat d (cwd (outside st')) = Directory)
      by (apply (stat_parent d "stations.csv"); rewrite A1; discriminate).
    exists s, p, w. repeat split; try assumption.
    + left. rewrite <- (O d (not_a_snapshot_file d)). exact D.
    + intros q Hq. apply O. intros I. apply Hq. right. exact I.
  - step_unit H Hm. apply mkdir_spec in Hm. destruct Hm as [Mk [Sm Nm]].
    apply os_mkdir_stat in Mk. destruct Mk as [B [_ Om]].
    apply save_as_csv_spec in H.
    destruct H as [s [p [w [Es [Ep [Ew [A1 [A2 [A3 [O [Sf Nw]]]]]]]]]]].
    rewrite Sm in Es, Ep, Ew.
    assert (D : stat d (cwd (outside st')) = Directory)
      by (apply (stat_parent d "stations.csv"); rewrite A1; discriminate).
    exists s, p, w. repeat split; try assumption; try congruence.
    + right. exact B.
    + intros q Hq. rewrite O, Om; [reflexivity | | ].
      * intros ->. apply Hq. left. reflexivity.
      * intros I. apply Hq. right. exact I.
Qed.

(** A successful [export] is a successful [check_folder] of the dated
    directory, after ['data'] was found or created. *)
Lemma export_steps st st' :
  export st = (Ok tt, st') ->
  exists st1,
    check_folder ["data"; backup_name (now (outside st))] st1 = (Ok tt, st') /\
    self st1 = self st /\
    ((os_path_exists ["data"] (cwd (outside st)) = true /\
      cwd (outside st1) = cwd (outside st)) \/
     (os_path_exists ["data"] (cwd (outside st)) = false /\
      os_mkdir ["data"] (cwd (outside st)) = Ok (cwd (outside st1)))).
Proof.
  unfold export. intros H.
  step_print H.
  step H w0 Hw. injection Hw as <- <-. cbn [now outside] in H.
  step H present Hp. apply path_exists_spec in Hp. destruct Hp as [-> ->].
  cbn [cwd outside] in H.
  destruct (os_path_exists ["data"] (cwd (outside st))) eqn:X.
  - eexists. split; [exact H | ]. split; [reflexivity | ].
    left. split; reflexivity.
  - step_unit H Hm. apply mkdir_spec in Hm. cbn [self outside cwd now] in Hm.
    destruct Hm as [Mk [Sm _]].
    eexists. split; [exact H | ]. split; [exact Sm | ].
    right. split; [reflexivity | exact Mk].
Qed.

(** The three files a successful [export] leaves in the dated
    directory, which is a directory. *)
Lemma export_snapshot_files st st' :
  export st = (Ok tt, st') ->
  exists s p w,
    stations_df (self st) = Frame s /\
    prices_df (self st) = Frame p /\
    working_df (self st) = Frame w /\
    let d := ["data"; backup_name (now (outside st))] in
    stat (d ++ ["stations.csv"]) (cwd (outside st')) = Regular (to_csv s) /\
    stat (d ++ ["prices.csv"]) (cwd (outside st')) = Regular (to_csv p) /\
    stat (d ++ ["combined.csv"]) (cwd (outside st')) = Regular (to_csv w) /\
    stat d (cwd (outside st')) = Directory.
Proof.
  intros H. apply export_steps in H. destruct H as [st1 [H [Sf _]]].
  apply check_folder_spec in H.
  destruct H as [s [p [w [Es [Ep [Ew [A1 [A2 [A3 [D _]]]]]]]]]].
  rewrite Sf in Es, Ep, Ew.
  exists s, p, w. cbn zeta. repeat split; assumption.
Qed.

(** C5. When [export] returns, the directory [data/backup_<YYYYMMDD>]
    named after the date of the clock holds the three files
    [stations.csv], [prices.csv] and [combined.csv], which are the three
    frames of the object as [to_csv] writes them; ['data'] and the dated
    directory are directories, each of which was one already or did not
    exist; and no other path of the working directory has changed. The
    object is left as it was. *)
Theorem export_writes_three_files st st' :
  export st = (Ok tt, st') ->
  exists s p w,
    stations_df (self st) = Frame s /\
    prices_df (self st) = Frame p /\
    working_df (self st) = Frame w /\
    let d := ["data"; backup_name (now (outside st))] in
    stat (d ++ ["stations.csv"]) (cwd (outside st')) = Regular (to_csv s) /\
    stat (d ++ ["prices.csv"]) (cwd (outside st')) = Regular (to_csv p) /\
    stat (d ++ ["combined.csv"]) (cwd (outside st')) = Regular (to_csv w) /\
    stat ["data"] (cwd (outside st')) = Directory /\
    stat d (cwd (outside st')) = Directory /\
    (stat ["data"] (cwd (outside st)) = Directory \/
     stat ["data"] (cwd (outside st)) = Nothing) /\
    (stat d (cwd (outside st)) = Directory \/
     stat d (cwd (outside st)) = Nothing) /\
    (forall q, ~ In q (["data"] :: d :: snapshot_files d) ->
               stat q (cwd (outside st')) = stat q (cwd (outside st))) /\
    self st' = self st.
Proof.
  intros H. apply export_steps in H. destruct H as [st1 [H [Sf Hdata]]].
  set (d := ["data"; backup_name (now (outside st))]) in *.
  assert (ND : ~ In ["data"] (d :: snapshot_files d)).
  { unfold d, snapshot_files. cbn. intros [E | [E | [E | [E | []]]]];
      discriminate. }
  apply check_folder_spec in H.
  destruct H as [s [p [w [Es [Ep [Ew [A1 [A2 [A3 [D [B [O [Sf' _]]]]]]]]]]]]].
  rewrite Sf in Es, Ep, Ew.
  assert (DD : stat ["data"] (cwd (outside st')) = Directory)
    by (apply (stat_parent ["data"] (backup_name (now (outside st))));
        change (stat d (cwd (outside st')) <> Nothing);
        rewrite D; discriminate).
  exists s, p, w. cbn zeta. fold d.
  destruct Hdata as [[X C] | [X Mk]].
  - rewrite C in B, O. repeat split; try assumption; try congruence.
    + left. rewrite <- (O ["data"] ND). exact DD.
    + intros q Hq. apply O. intros I. apply Hq. right. exact I.
  - apply os_mkdir_stat in Mk. destruct Mk as [B0 [_ Om]].
    assert (Nd : d <> ["data"]) by (unfold d; discriminate).
    repeat split; try assumption; try congruence.
    + right. exact B0.
    + rewrite <- (Om d Nd). exact B.
    + intros q Hq. rewrite O, Om; [reflexivity | | ].
      * intros ->. apply Hq. left. reflexivity.
      * intros I. apply Hq. right. exact I.
Qed.

Lemma export_writes_three_files_witness :
  stat ["data"; "backup_20240131"; "prices.csv"]
       (cwd (outside (snd (export (joined demo_feed))))) =
    Regular [[""; "stationcode"; "fueltype"; "price"];
             ["0"; "17"; "E10"; "150"];
             ["1"; "17"; "U91"; "152"];
             ["2"; "99"; "E10"; "149"]] /\
  stat ["data"] (cwd (outside (snd (export (joined demo_feed))))) = Directory /\
  stat ["data"] (cwd (outside (joined demo_feed))) = Nothing.
Proof.
  destruct (export_writes_three_files (joined demo_feed)
              (snd (export (joined demo_feed)))
              (returns_Ok export (joined demo_feed) tt eq_refl))
    as [s [p [w [_ [Hp [_ [_ [H2 [_ [H4 [_ [[H6 | H6] _]]]]]]]]]]]].
  - discriminate H6.
  - assert (E : prices_df (self (joined demo_feed)) =
                Frame {| columns := ["stationcode"; "fueltype"; "price"];
                         rows := [[JInt 17; JStr "E10"; JInt 150];
                                  [JInt 17; JStr "U91"; JInt 152];
                                  [JInt 99; JStr "E10"; JInt 149]] |})
      by reflexivity.
    rewrite E in Hp. injection Hp as <-.
    split; [exact H2 | split; [exact H4 | exact H6]].
Defined.

(** ** An object on which nothing was computed yet *)

Ltac unfold_all :=
  unfold run, read_record, export, check_folder, save_as_csv,
    build_working_df, create_station_list, create_price_list, update_data,
    fetch_prices, get_token, try_except, df_to_csv, frame_of, mkdir,
    path_exists, pd_read_csv, requests_request, response_json, assign,
    print, lift, bind, get_world, set_world, get_self, set_self, raise, ret.

(** On a fresh object [save_as_csv] fails at its first statement:
    [stations_df] is [None], which has no [to_csv]. *)
Lemma save_as_csv_fresh a u w d :
  save_as_csv d (fresh a u w) = (Raise AttributeError, fresh a u w).
Proof. reflexivity. Qed.

(** Without a stations frame, [check_folder] and [export] go as far as
    their directories allow and then fail in [save_as_csv]. *)
Lemma check_folder_no_frame d st :
  stations_df (self st) = IsNone ->
  fst (check_folder d st) =
  if os_path_exists d (cwd (outside st)) then Raise AttributeError
  else match os_mkdir d (cwd (outside st)) with
       | Ok _ => Raise AttributeError
       | Raise e => Raise e
       end.
Proof.
  intros N. unfold_all. cbn.
  destruct (os_path_exists d (cwd (outside st))); cbn.
  - rewrite N. reflexivity.
  - destruct (os_mkdir d (cwd (outside st))); cbn; [ | reflexivity].
    rewrite N. reflexivity.
Qed.

Lemma export_no_frame st :
  stations_df (self st) = IsNone ->
  fst (export st) =
  let d := ["data"; backup_name (now (outside st))] in
  let then_check es :=
    if os_path_exists d es then Raise AttributeError
    else match os_mkdir d es with
         | Ok _ => Raise AttributeError
         | Raise e => Raise e
         end in
  if os_path_exists ["data"] (cwd (outside st)) then then_check (cwd (outside st))
  else match os_mkdir ["data"] (cwd (outside st)) with
       | Ok es => then_check es
       | Raise e => Raise e
       end.
Proof.
  intros N. unfold export.
  rewrite (bind_Ok _ _ _ _ _ (print_spec _ st)).
  unfold bind at 1. unfold get_world at 1. cbn [outside now].
  unfold bind at 1. unfold path_exists at 1, bind at 1, get_world at 1, ret.
  cbn [outside cwd].
  destruct (os_path_exists ["data"] (cwd (outside st))).
  - rewrite check_folder_no_frame by exact N. reflexivity.
  - unfold bind at 1, mkdir at 1, bind at 1, get_world at 1.
    unfold bind at 1, lift at 1. cbn [outside cwd].
    destruct (os_mkdir ["data"] (cwd (outside st))) as [es | e];
      [ | reflexivity].
    unfold set_world at 1. cbn [self outside].
    rewrite check_folder_no_frame by exact N. reflexivity.
Qed.

Lemma export_fresh a u w :
  (forall doc, stat ["data"] (cwd w) <> Regular doc) ->
  fst (export (fresh a u w)) = Raise AttributeError.
Proof.
  intros NF. rewrite export_no_frame by reflexivity.
  cbn [fresh outside self]. generalize (backup_name (now w)) as n. intros n.
  rewrite stat_cons in NF.
  unfold os_path_exists, os_mkdir. cbn.
  destruct (assoc "data" (cwd w)) as [[doc | sub] | ] eqn:A; cbn.
  - exfalso. apply (NF doc). reflexivity.
  - destruct (assoc n sub) as [[doc | sub'] | ]; reflexivity.
  - rewrite assoc_set_same. cbn. reflexivity.
Qed.

(** ** [combined_df] *)

Lemma ignores_ret {A : Type} (a : A) : ignores_combined_df (ret a).
Proof. intros c st. reflexivity. Qed.

Lemma ignores_raise {A : Type} e : ignores_combined_df (@raise A e).
Proof. intros c st. reflexivity. Qed.

Lemma ignores_lift {A : Type} (o : outcome A) : ignores_combined_df (lift o).
Proof. intros c st. reflexivity. Qed.

Lemma ignores_get_world : ignores_combined_df get_world.
Proof. intros c st. reflexivity. Qed.

Lemma ignores_set_world w : ignores_combined_df (set_world w).
Proof. intros c st. reflexivity. Qed.

Lemma ignores_print line : ignores_combined_df (print line).
Proof. intros c st. reflexivity. Qed.

Lemma ignores_bind {A B : Type} (m : M A) (k : A -> M B) :
  ignores_combined_df m -> (forall a, ignores_combined_df (k a)) ->
  ignores_combined_df (bind m k).
Proof.
  intros Hm Hk c st. unfold bind. rewrite Hm.
  destruct (m st) as [[a | e] st1]; cbn; [apply Hk | reflexivity].
Qed.

(** Reading [self] is harmless when what follows does not look at
    [combined_df]. *)
Lemma ignores_self {A : Type} (k : obj -> M A) :
  (forall o, ignores_combined_df (k o)) ->
  (forall c o, k (set_combined_df c o) = k o) ->
  ignores_combined_df (bind get_self k).
Proof.
  intros Hk He c st. unfold bind, get_self. cbn. rewrite He. apply Hk.
Qed.

(** So is an assignment to another attribute. *)
Lemma ignores_assign (f : obj -> obj) :
  (forall c o, f (set_combined_df c o) = set_combined_df c (f o)) ->
  ignores_combined_df (assign f).
Proof.
  intros Hf c st. unfold assign, bind, get_self, set_self, recombine. cbn.
  rewrite Hf. reflexivity.
Qed.

Lemma ignores_try_except body handler :
  ignores_combined_df body -> ignores_combined_df handler ->
  ignores_combined_df (try_except body handler).
Proof.
  intros Hb Hh c st. unfold try_except. rewrite Hb.
  destruct (body st) as [[u | e] st1]; cbn; [reflexivity | apply Hh].
Qed.

Create HintDb ignores.
#[local] Hint Resolve ignores_ret ignores_raise ignores_lift ignores_get_world
  ignores_set_world ignores_print : ignores.

(** Goes through a method statement by statement. *)
Ltac ignores :=
  repeat (intros;
    match goal with
    | |- ignores_combined_df (bind get_self _) =>
        apply ignores_self; [ | intros; reflexivity]
    | |- ignores_combined_df (bind _ _) => apply ignores_bind
    | |- ignores_combined_df (try_except _ _) => apply ignores_try_except
    | |- ignores_combined_df (assign _) =>
        apply ignores_assign; intros; reflexivity
    | |- ignores_combined_df (if ?b then _ else _) => destruct b
    | |- ignores_combined_df (match ?x with _ => _ end) => destruct x
    | |- ignores_combined_df _ => solve [auto with ignores]
    end).

Lemma ignores_requests_request r : ignores_combined_df (requests_request r).
Proof. unfold requests_request. ignores. Qed.

Lemma ignores_response_json body : ignores_combined_df (response_json body).
Proof. unfold response_json. ignores. Qed.

#[local] Hint Resolve ignores_requests_request ignores_response_json : ignores.

Lemma ignores_get_token : ignores_combined_df get_token.
Proof. unfold get_token. ignores. Qed.

Lemma ignores_update_data k : ignores_combined_df (update_data k).
Proof. unfold update_data, fetch_prices. ignores. Qed.

Lemma ignores_create_price_list : ignores_combined_df create_price_list.
Proof. unfold create_price_list. ignores. Qed.

Lemma ignores_create_station_list : ignores_combined_df create_station_list.
Proof. unfold create_station_list. ignores. Qed.

Lemma ignores_build_working_df : ignores_combined_df build_working_df.
Proof. unfold build_working_df. ignores. Qed.

Lemma ignores_df_to_csv s d : ignores_combined_df (df_to_csv s d).
Proof. unfold df_to_csv, frame_of. ignores. Qed.

Lemma ignores_mkdir d : ignores_combined_df (mkdir d).
Proof. unfold mkdir. ignores. Qed.

Lemma ignores_path_exists d : ignores_combined_df (path_exists d).
Proof. unfold path_exists. ignores. Qed.

#[local] Hint Resolve ignores_df_to_csv ignores_mkdir ignores_path_exists
  : ignores.

Lemma ignores_save_as_csv d : ignores_combined_df (save_as_csv d).
Proof. unfold save_as_csv. ignores. Qed.

#[local] Hint Resolve ignores_save_as_csv : ignores.

Lemma ignores_check_folder d : ignores_combined_df (check_folder d).
Proof. unfold check_folder. ignores. Qed.

#[local] Hint Resolve ignores_check_folder : ignores.

Lemma ignores_export : ignores_combined_df export.
Proof. unfold export. ignores. Qed.

Lemma ignores_pd_read_csv infer d : ignores_combined_df (pd_read_csv infer d).
Proof. unfold pd_read_csv. ignores. Qed.

#[local] Hint Resolve ignores_pd_read_csv : ignores.

Lemma ignores_read_record infer : ignores_combined_df (read_record infer).
Proof. unfold read_record. ignores. Qed.

#[local] Hint Resolve ignores_get_token ignores_update_data
  ignores_create_price_list ignores_create_station_list
  ignores_build_working_df ignores_export ignores_read_record : ignores.

Lemma ignores_run infer k : ignores_combined_df (run infer k).
Proof. unfold run. ignores. Qed.




Lemma read_record_loads_greatest_entry_witness :
  exists latest,
    latest = "backup_20240131" /\
    In latest [ "backup_20240101"; "backup_20240131"; "backup_20231231"; ".DS_Store" ] /\
    (forall n,
       In n [ "backup_20240101"; "backup_20240131"; "backup_20231231"; ".DS_Store" ] ->
       String.leb n latest = true) /\
    fst (read_record infer_plain
           (fresh "Basic abc" false (world_of three_snapshots unreachable))) = Ok tt /\
    slot_nrows (prices_df (self (snd (read_record infer_plain
           (fresh "Basic abc" false (world_of three_snapshots unreachable)))))) = Some 1.
Proof.
  destruct (read_record_loads_greatest_entry infer_plain
              (fresh "Basic abc" false (world_of three_snapshots unreachable))
              [ "backup_20240101"; "backup_20240131"; "backup_20231231"; ".DS_Store" ]
              eq_refl) as [latest [I [G [F _]]]].
  - discriminate.
  - assert (E : latest = "backup_20240131").
    { apply String.leb_antisym.
      - cbn in I. destruct I as [<- | [<- | [<- | [<- | []]]]]; reflexivity.
      - apply G. cbn. tauto. }
    subst latest. exists "backup_20240131".
    split; [reflexivity | split; [exact I | split; [exact G | ]]].
    split; reflexivity.
Defined.

(** ** When [export] succeeds *)

Lemma stat_single c es : stat [c] es = kind_of_opt (assoc c es).
Proof.
  rewrite stat_cons. destruct (assoc c es) as [[doc | sub] | ]; reflexivity.
Qed.

Lemma update_cons change x p es :
  p <> [] ->
  update (x :: p) change es =
  match assoc x es with
  | None => Raise FileNotFoundError
  | Some (File _) => Raise NotADirectoryError
  | Some (Dir sub) =>
      match update p change sub with
      | Ok new => Ok (assoc_set x (Dir new) es)
      | Raise e => Raise e
      end
  end.
Proof. destruct p; [contradiction | reflexivity]. Qed.

(** An entry can be rewritten in any directory that exists, provided
    [change] accepts what is there. *)
Lemma update_succeeds change c : forall d es,
  stat d es = Directory ->
  (forall o, kind_of_opt o = stat (d ++ [c]) es -> exists new, change o = Ok new) ->
  exists es', update (d ++ [c]) change es = Ok es'.
Proof.
  induction d as [ | x d IH]; intros es D C.
  - cbn. cbn [app] in C. destruct (C (assoc c es)) as [new E].
    + symmetry. apply stat_single.
    + rewrite E. eexists. reflexivity.
  - rewrite stat_cons in D. cbn [app] in C. rewrite stat_cons in C.
    cbn [app]. rewrite update_cons by (destruct d; discriminate).
    destruct (assoc x es) as [[doc | sub] | ].
    + destruct d; discriminate D.
    + destruct (IH sub D C) as [sub' E]. rewrite E. eexists. reflexivity.
    + discriminate D.
Qed.

Lemma os_mkdir_succeeds d c es :
  stat d es = Directory -> stat (d ++ [c]) es = Nothing ->
  exists es', os_mkdir (d ++ [c]) es = Ok es'.
Proof.
  intros D N. apply update_succeeds; [exact D | ].
  intros [n | ] K; [ | eexists; reflexivity].
  rewrite N in K. destruct n; discriminate K.
Qed.

Lemma write_file_succeeds d c doc es :
  stat d es = Directory -> stat (d ++ [c]) es <> Directory ->
  exists es', write_file (d ++ [c]) doc es = Ok es'.
Proof.
  intros D N. apply update_succeeds; [exact D | ].
  intros [[doc' | sub] | ] K; try (eexists; reflexivity).
  exfalso. apply N. rewrite <- K. reflexivity.
Qed.

Lemma stat_below_nothing d c es :
  stat d es = Nothing -> stat (d ++ [c]) es = Nothing.
Proof.
  intros N. destruct (stat (d ++ [c]) es) eqn:E; [reflexivity | | ];
    assert (D : stat d es = Directory)
      by (apply (stat_parent d c); rewrite E; discriminate);
    rewrite N in D; discriminate D.
Qed.

Lemma mkdir_run p st es' :
  os_mkdir p (cwd (outside st)) = Ok es' ->
  mkdir p st = (Ok tt, {| self := self st; outside := set_cwd es' (outside st) |}).
Proof.
  intros E. unfold mkdir, bind, get_world, lift, set_world. rewrite E.
  reflexivity.
Qed.

Lemma df_to_csv_run t p st es' :
  write_file p (to_csv t) (cwd (outside st)) = Ok es' ->
  df_to_csv (Frame t) p st =
  (Ok tt, {| self := self st; outside := set_cwd es' (outside st) |}).
Proof.
  intros E. unfold df_to_csv, frame_of, bind, ret, get_world, lift, set_world.
  rewrite E. reflexivity.
Qed.

Lemma dir_is_not_its_file (d : path) (c : string) : d <> d ++ [c].
Proof.
  intros E. apply (f_equal (@List.length string)) in E.
  rewrite length_app in E. cbn in E. lia.
Qed.

(** With its three frames, [save_as_csv(d)] succeeds in a directory [d]
    in which none of the three names is a directory. *)
Lemma save_as_csv_succeeds d st s p w :
  stations_df (self st) = Frame s ->
  prices_df (self st) = Frame p ->
  working_df (self st) = Frame w ->
  stat d (cwd (outside st)) = Directory ->
  (forall q, In q (snapshot_files d) -> stat q (cwd (outside st)) <> Directory) ->
  fst (save_as_csv d st) = Ok tt.
Proof.
  intros Es Ep Ew D F.
  destruct (write_file_succeeds d "stations.csv" (to_csv s) _ D) as [es1 W1].
  { apply F. cbn. tauto. }
  pose proof (write_file_stat _ _ _ _ W1) as [_ [_ O1]].
  destruct (write_file_succeeds d "prices.csv" (to_csv p) es1) as [es2 W2].
  { rewrite O1; [exact D | apply dir_is_not_its_file]. }
  { rewrite O1; [apply F; cbn; tauto | ].
    apply snapshot_paths_differ. discriminate. }
  pose proof (write_file_stat _ _ _ _ W2) as [_ [_ O2]].
  destruct (write_file_succeeds d "combined.csv" (to_csv w) es2) as [es3 W3].
  { rewrite O2, O1; [exact D | | ]; apply dir_is_not_its_file. }
  { rewrite O2, O1; [apply F; cbn; tauto | | ];
      apply snapshot_paths_differ; discriminate. }
  unfold save_as_csv. unfold bind at 1. unfold get_self at 1.
  rewrite Es, Ep, Ew.
  rewrite (bind_Ok _ _ _ _ _ (df_to_csv_run s _ st es1 W1)).
  set (st1 := {| self := self st; outside := set_cwd es1 (outside st) |}).
  change es1 with (cwd (outside st1)) in W2.
  rewrite (bind_Ok _ _ _ _ _ (df_to_csv_run p _ st1 es2 W2)).
  set (st2 := {| self := self st1; outside := set_cwd es2 (outside st1) |}).
  change es2 with (cwd (outside st2)) in W3.
  rewrite (bind_Ok _ _ _ _ _ (df_to_csv_run w _ st2 es3 W3)).
  reflexivity.
Qed.

Lemma check_folder_succeeds d c st s p w :
  stations_df (self st) = Frame s ->
  prices_df (self st) = Frame p ->
  working_df (self st) = Frame w ->
  stat d (cwd (outside st)) = Directory ->
  stat (d ++ [c]) (cwd (outside st)) = Nothing \/
  (stat (d ++ [c]) (cwd (outside st)) = Directory /\
   forall q, In q (snapshot_files (d ++ [c])) ->
             stat q (cwd (outside st)) <> Directory) ->
  fst (check_folder (d ++ [c]) st) = Ok tt.
Proof.
  intros Es Ep Ew D H. unfold check_folder.
  unfold bind at 1. unfold path_exists at 1, bind at 1, get_world at 1, ret.
  rewrite os_path_exists_stat.
  destruct H as [N | [Dc F]].
  - rewrite N. cbn [negb].
    destruct (os_mkdir_succeeds d c _ D N) as [es1 Mk].
    rewrite (bind_Ok _ _ _ _ _ (mkdir_run _ st es1 Mk)).
    pose proof (os_mkdir_stat _ _ _ Mk) as [_ [D1 O1]].
    apply (save_as_csv_succeeds _ _ s p w); try assumption.
    intros q Hq. cbn [outside set_cwd cwd]. rewrite O1.
    + unfold snapshot_files in Hq. cbn in Hq.
      destruct Hq as [<- | [<- | [<- | []]]];
        rewrite (stat_below_nothing _ _ _ N); discriminate.
    + intros ->. exact (not_a_snapshot_file _ Hq).
  - rewrite Dc. cbn [negb].
    apply (save_as_csv_succeeds _ _ s p w); assumption.
Qed.

(** X10. [export] succeeds on an object that has its three frames,
    whenever ['data'] and the dated directory are absent or are
    directories, and none of the three file names is taken by a
    directory. *)
Lemma export_succeeds st s p w :
  stations_df (self st) = Frame s ->
  prices_df (self st) = Frame p ->
  working_df (self st) = Frame w ->
  let d := ["data"; backup_name (now (outside st))] in
  stat ["data"] (cwd (outside st)) = Nothing \/
  (stat ["data"] (cwd (outside st)) = Directory /\
   (stat d (cwd (outside st)) = Nothing \/
    (stat d (cwd (outside st)) = Directory /\
     forall q, In q (snapshot_files d) ->
               stat q (cwd (outside st)) <> Directory))) ->
  fst (export st) = Ok tt.
Proof.
  intros Es Ep Ew d H. unfold export.
  rewrite (bind_Ok _ _ _ _ _ (print_spec _ st)).
  match goal with |- fst (_ ?x) = _ => set (st0 := x) end.
  change (cwd (outside st)) with (cwd (outside st0)) in H.
  change (self st) with (self st0) in Es, Ep, Ew.
  unfold bind at 1. unfold get_world at 1.
  change (now (outside st0)) with (now (outside st)). fold d.
  unfold bind at 1. unfold path_exists at 1, bind at 1, get_world at 1, ret.
  rewrite os_path_exists_stat.
  destruct H as [N | [D H]].
  - rewrite N. cbn [negb].
    destruct (os_mkdir_succeeds [] "data" _ (stat_nil _) N) as [es1 Mk].
    cbn [app] in Mk.
    rewrite (bind_Ok _ _ _ _ _ (mkdir_run _ st0 es1 Mk)).
    pose proof (os_mkdir_stat _ _ _ Mk) as [_ [D1 O1]].
    apply (check_folder_succeeds ["data"] _ _ s p w); try assumption.
    left. cbn [outside set_cwd cwd app]. rewrite O1 by discriminate.
    apply (stat_below_nothing ["data"]). exact N.
  - rewrite D. cbn [negb].
    apply (check_folder_succeeds ["data"] _ _ s p w); try assumption.
Qed.

(** ** A snapshot reloaded by a second object *)

Lemma stat_Regular_read_file p es doc :
  stat p es = Regular doc -> read_file p es = Ok doc.
Proof.
  unfold stat, read_file. destruct (resolve p es) as [[d | sub] | e];
    intros H; try discriminate. injection H as <-. reflexivity.
Qed.

Lemma assoc_In {A : Type} k (v : A) l : assoc k l = Some v -> In k (map fst l).
Proof.
  induction l as [ | [k' v'] l IH]; cbn; [discriminate | ].
  destruct (String.eqb_spec k k') as [-> | N]; intros H.
  - left. reflexivity.
  - right. apply IH. exact H.
Qed.

(** A directory that exists under [c] is in the listing of [c]. *)
Lemma listed c x es names :
  stat [c; x] es = Directory -> os_listdir [c] es = Ok names -> In x names.
Proof.
  unfold os_listdir. rewrite stat_cons. cbn.
  destruct (assoc c es) as [[doc | sub] | ]; try discriminate.
  rewrite stat_single. intros D H. injection H as <-.
  destruct (assoc x sub) as [n | ] eqn:A; [ | discriminate D].
  apply (assoc_In x n). exact A.
Qed.

(** X17. After an [export], whenever the snapshot just written is the
    greatest entry of ['data'], an object that reloads it with
    [read_record] gets three frames, none of which is the frame that
    was saved: each has one column more. *)
Lemma reload_after_export_differs infer st st1 o st2 names :
  export st = (Ok tt, st1) ->
  os_listdir ["data"] (cwd (outside st1)) = Ok names ->
  (forall n, In n names ->
             String.leb n (backup_name (now (outside st))) = true) ->
  read_record infer {| self := o; outside := outside st1 |} = (Ok tt, st2) ->
  exists s p w ts tp tw,
    stations_df (self st) = Frame s /\ stations_df (self st2) = Frame ts /\
    prices_df (self st) = Frame p /\ prices_df (self st2) = Frame tp /\
    working_df (self st) = Frame w /\ working_df (self st2) = Frame tw /\
    List.length (columns ts) = S (List.length (columns s)) /\
    List.length (columns tp) = S (List.length (columns p)) /\
    List.length (columns tw) = S (List.length (columns w)) /\
    ts <> s /\ tp <> p /\ tw <> w.
Proof.
  intros X L G R.
  apply export_snapshot_files in X.
  destruct X as [s [p [w [Es [Ep [Ew [Fs [Fp [Fw D]]]]]]]]].
  cbn [app] in Fs, Fp, Fw.
  pose proof (listed _ _ _ _ D L) as Hin.
  assert (NE : names <> []) by (intros ->; exact Hin).
  destruct (sorted_reverse_first names NE) as [latest [rest [S [I M]]]].
  destruct (read_record_reads infer {| self := o; outside := outside st1 |}
              names latest rest L S) as [Fwd Bwd].
  assert (E : latest = backup_name (now (outside st))).
  { apply String.leb_antisym; [apply G; exact I | apply M; exact Hin]. }
  subst latest. cbn [outside] in Fwd, Bwd.
  rewrite R in Bwd. destruct (Bwd eq_refl) as [tp [ts [tw [Lp [Ls Lw]]]]].
  destruct (Fwd tp ts tw Lp Ls Lw) as [_ [Hp [Hs Hw]]].
  rewrite R in Hp, Hs, Hw. cbn [snd] in Hp, Hs, Hw.
  unfold load_csv in Lp, Ls, Lw.
  rewrite (stat_Regular_read_file _ _ _ Fp) in Lp.
  rewrite (stat_Regular_read_file _ _ _ Fs) in Ls.
  rewrite (stat_Regular_read_file _ _ _ Fw) in Lw.
  exists s, p, w, ts, tp, tw.
  pose proof (read_back_shape _ _ _ Ls) as [_ [Cs _]].
  pose proof (read_back_shape _ _ _ Lp) as [_ [Cp _]].
  pose proof (read_back_shape _ _ _ Lw) as [_ [Cw _]].
  repeat split; try assumption; intros ->; lia.
Qed.

(* ================================================================== *)
(** * Further properties of the methods *)
(* ================================================================== *)

(** ** What a method leaves alone *)

Lemma keeps_bind {B A C : Type} (f : state -> B) (m : M A) (k : A -> M C) :
  keeps f m -> (forall a, keeps f (k a)) -> keeps f (bind m k).
Proof.
  intros Hm Hk st. unfold bind. specialize (Hm st).
  destruct (m st) as [[a | e] st1]; cbn in *.
  - rewrite Hk. exact Hm.
  - exact Hm.
Qed.

Lemma keeps_try_except {B : Type} (f : state -> B) body handler :
  keeps f body -> keeps f handler -> keeps f (try_except body handler).
Proof.
  intros Hb Hh st. unfold try_except. specialize (Hb st).
  destruct (body st) as [[u | e] st1]; cbn in *.
  - exact Hb.
  - rewrite Hh. exact Hb.
Qed.

Ltac unfold_methods :=
  unfold run, read_record, export, check_folder, save_as_csv,
    build_working_df, create_station_list, create_price_list, update_data,
    fetch_prices, get_token.

(** A statement that touches the state is settled by computing it. *)
Ltac keeps_by_computing :=
  let st := fresh "st" in
  intros st;
  unfold df_to_csv, frame_of, mkdir, path_exists, pd_read_csv,
    requests_request, response_json, assign, print, lift, bind, get_world,
    set_world, get_self, set_self, raise, ret;
  cbv beta iota zeta;
  repeat (match goal with
          | |- context [match ?x with _ => _ end] =>
              lazymatch x with
              | context [match _ with _ => _ end] => fail
              | _ => destruct x; cbv beta iota zeta
              end
          end);
  reflexivity.

(** Goes through a method statement by statement. *)
Ltac keeps_by_steps :=
  unfold_methods;
  repeat (intros;
    match goal with
    | |- keeps _ (let _ := _ in _) => cbv zeta
    | |- keeps _ (bind _ _) => apply keeps_bind
    | |- keeps _ (try_except _ _) => apply keeps_try_except
    | |- keeps _ (if ?b then _ else _) => destruct b
    | |- keeps _ (match ?x with _ => _ end) => destruct x
    | |- keeps _ _ => solve [keeps_by_computing]
    end).

(** Reloading reads: [read_record] writes no file, sends no request and
    leaves the clock, the credentials and the fetched data alone. *)
Lemma read_record_keeps infer :
  keeps disk (read_record infer) /\ keeps outbox (read_record infer) /\
  keeps clock (read_record infer) /\ keeps fetched_part (read_record infer).
Proof. repeat split; keeps_by_steps. Qed.

(** Exporting writes: [export] sends no request, prints, and leaves the
    whole object alone. *)
Lemma export_keeps :
  keeps outbox export /\ keeps clock export /\ keeps self export.
Proof. repeat split; keeps_by_steps. Qed.

(** The steps before [export] do not touch the working directory. *)
Lemma steps_keep_disk k :
  keeps disk get_token /\ keeps disk (update_data k) /\
  keeps disk create_price_list /\ keeps disk create_station_list /\
  keeps disk build_working_df.
Proof. repeat split; keeps_by_steps. Qed.

(** X1. A run with [is_update] false only reads: whatever happens, it
    writes nothing to the working directory, sends no request, and the
    flag, the credentials, the token and the raw response of the object
    are what they were. *)
Theorem reload_run_only_reads infer k st :
  is_update (self st) = false ->
  disk (snd (run infer k st)) = disk st /\
  outbox (snd (run infer k st)) = outbox st /\
  fetched_part (snd (run infer k st)) = fetched_part st.
Proof.
  intros U.
  assert (E : run infer k st =
              read_record infer (snd (print "FuelRun - Backend //" st))).
  { unfold run. rewrite (bind_Ok _ _ _ _ _ (print_spec _ st)).
    unfold bind at 1. unfold get_self at 1. cbn [self]. rewrite U.
    reflexivity. }
  rewrite E. destruct (read_record_keeps infer) as [D [O [_ F]]].
  rewrite D, O, F. repeat split.
Qed.

Lemma reload_run_only_reads_witness :
  disk (snd (run infer_plain demo_constants
               (fresh "Basic abc" false (world_of three_snapshots unreachable))))
    = three_snapshots /\
  outbox (snd (run infer_plain demo_constants
               (fresh "Basic abc" false (world_of three_snapshots unreachable))))
    = [].
Proof.
  destruct (reload_run_only_reads infer_plain demo_constants
              (fresh "Basic abc" false (world_of three_snapshots unreachable))
              eq_refl) as [D [O _]].
  split; [exact D | exact O].
Defined.

(** ** The two requests of an update run *)

Lemma run_update infer k st :
  is_update (self st) = true ->
  run infer k st =
  (get_token ;; update_data k ;; process_and_export) (started st).
Proof.
  intros U. unfold run, started.
  rewrite (bind_Ok _ _ _ _ _ (print_spec _ st)).
  unfold bind at 1. unfold get_self at 1. cbn [self]. rewrite U.
  rewrite (bind_Ok _ _ _ _ _ (print_spec _ _)). reflexivity.
Qed.

(** What a successful [get_token] does: one request, one line, and the
    token under ['access_token'], whatever JSON value it is. *)
Lemma get_token_Ok st v token :
  server (outside st) (token_request (self st)) = Response (Some v) ->
  subscript v "access_token" = Ok token ->
  get_token st =
  (Ok tt,
   {| self := set_access_token token (self st);
      outside :=
        {| cwd := cwd (outside st);
           stdout := stdout (outside st) ++
                     ["Step 1/6 : Generating Access Token for NSW API..."];
           now := now (outside st);
           server := server (outside st);
           sent := sent (outside st) ++ [token_request (self st)] |} |}).
Proof.
  intros R T.
  unfold get_token, requests_request, response_json, assign, print, lift,
    bind, get_world, set_world, get_self, set_self, raise, ret; cbn.
  rewrite R. cbn. rewrite T. reflexivity.
Qed.

Lemma update_data_sends k st :
  outbox (snd (update_data k st)) = outbox st ++ [prices_request k (self st)].
Proof.
  unfold outbox, update_data, try_except, fetch_prices, requests_request,
    response_json, assign, print, bind, get_world, set_world, get_self,
    set_self, raise, ret; cbn.
  destruct (server (outside st) _) as [e' | [v | ]]; reflexivity.
Qed.

Lemma process_and_export_keeps_outbox : keeps outbox process_and_export.
Proof. unfold process_and_export. keeps_by_steps. Qed.



(** ** A fetch that failed *)

Lemma update_data_no_data k st :
  no_data (server (outside st) (prices_request k (self st))) ->
  update_data k st =
  (Ok tt,
   {| self := self st;
      outside :=
        {| cwd := cwd (outside st);
           stdout := (stdout (outside st) ++
                      ["Step 2/6 : Fetching Fuel Price from NSW API..."]) ++
                     ["Failed to fetch fuel prices, please try again later."];
           now := now (outside st);
           server := server (outside st);
           sent := sent (outside st) ++ [prices_request k (self st)] |} |}).
Proof.
  unfold update_data, try_except, fetch_prices, requests_request,
    response_json, assign, print, bind, get_world, set_world, get_self,
    set_self, raise, ret; cbn.
  destruct (server (outside st) _) as [e' | [v | ]]; cbn; intros H;
    [reflexivity | contradiction | reflexivity].
Qed.

Lemma process_without_prices st e :
  subscript (raw_response (self st)) "prices" = Raise e ->
  process_and_export st =
  (Raise e, snd (print "Step 3/6 : Generating Fuel Price Dataframe..." st)).
Proof.
  intros H. unfold process_and_export, create_price_list.
  unfold bind, print, lift, get_world, set_world, get_self; cbn.
  rewrite H. reflexivity.
Qed.



(** ** The station table of a well-formed feed *)

Lemma station_row_of_station v :
  is_station v ->
  py_items v = Ok (members_of v) /\
  station_row (members_of v) = Ok (station_record v).
Proof.
  intros [O [K [L N]]].
  destruct v as [ | | | | | | members]; try discriminate O.
  cbn [members_of] in *. split; [reflexivity | ].
  unfold station_keys in K.
  repeat (let k := fresh "k" in let x := fresh "x" in
          destruct members as [ | [k x] members]; cbn in K;
          [discriminate K | injection K as -> K]).
  destruct members; cbn in K; [ | discriminate K].
  unfold station_record, field_of in *. cbn in L, N |- *.
  destruct x5 as [ | | | | | | loc]; try discriminate L.
  reflexivity.
Qed.

Lemma station_rows_of_stations items :
  Forall is_station items ->
  station_rows items = Ok (map station_record items).
Proof.
  induction 1 as [ | v items Hv _ IH]; cbn; [reflexivity | ].
  destruct (station_row_of_station v Hv) as [-> ->]. rewrite IH. reflexivity.
Qed.

Lemma length_station_record v :
  is_station v -> List.length (station_record v) = 9.
Proof.
  intros [_ [_ [_ N]]]. unfold station_record.
  rewrite length_app, length_app, length_map, N. reflexivity.
Qed.

Lemma pad_to_full n r : List.length r = n -> pad_to n r = r.
Proof.
  revert r. induction n as [ | n IH]; intros [ | x r] H; cbn in *;
    try discriminate; try reflexivity.
  rewrite IH by lia. reflexivity.
Qed.

Lemma list_max_constant n x l :
  Forall (fun k => k = n) (x :: l) -> list_max (x :: l) = n.
Proof.
  revert x. induction l as [ | y l IH]; intros x F.
  - inversion F; subst. cbn. lia.
  - inversion F as [ | ? ? Hx Hl]; subst.
    change (list_max (n :: y :: l)) with (Nat.max n (list_max (y :: l))).
    rewrite (IH y Hl). lia.
Qed.

Lemma DataFrame_of_stations items :
  Forall is_station items ->
  DataFrame (map station_record items) station_columns =
  Ok {| columns := station_columns; rows := map station_record items |}.
Proof.
  intros F. destruct items as [ | v items]; [reflexivity | ].
  unfold DataFrame.
  assert (W : list_max (map (@List.length json) (map station_record (v :: items)))
              = 9).
  { cbn [map]. apply list_max_constant.
    change (Forall (fun k => k = 9)
              (map (@List.length json) (map station_record (v :: items)))).
    rewrite Forall_map, Forall_map. eapply Forall_impl; [ | exact F].
    intros a Ha. apply length_station_record. exact Ha. }
  cbn [map] in W |- *. rewrite W. cbn [Nat.eqb station_columns List.length].
  f_equal. f_equal.
  change (map (pad_to 9) (map station_record (v :: items)) =
          map station_record (v :: items)).
  rewrite map_map. apply map_ext_in. intros a Ha. apply pad_to_full.
  rewrite Forall_forall in F. apply length_station_record, F, Ha.
Qed.

Lemma astype_int64_all cells :
  Forall (fun v => exists z, to_int64 v = Ok z) cells ->
  astype_int64 cells = Ok (map as_int64 cells).
Proof.
  induction 1 as [ | v cells [z Hz] _ IH]; cbn; [reflexivity | ].
  unfold as_int64 at 1. rewrite Hz, IH. reflexivity.
Qed.

Lemma astype_int64_first_failure cells :
  Exists (fun v => exists e, to_int64 v = Raise e) cells ->
  exists e, astype_int64 cells = Raise e.
Proof.
  induction 1 as [v cells [e He] | v cells _ [e IH]]; cbn.
  - rewrite He. exists e. reflexivity.
  - destruct (to_int64 v) as [z | e']; [ | exists e'; reflexivity].
    rewrite IH. exists e. reflexivity.
Qed.

Lemma set_column_map {A : Type} j (f : A -> json) (g : A -> list json) l :
  set_column j (map f l) (map g l) = map (fun a => set_nth j (f a) (g a)) l.
Proof. induction l as [ | a l IH]; cbn; [reflexivity | rewrite IH; reflexivity]. Qed.

Lemma index_of_code : index_of "code" station_columns = Some 3.
Proof. reflexivity. Qed.

Lemma column_of_stations items :
  column 3 {| columns := station_columns; rows := map station_record items |} =
  map (field_of "code") items.
Proof.
  unfold column. cbn [rows]. rewrite map_map. apply map_ext.
  intros v. reflexivity.
Qed.

Lemma astype_code_of_stations items :
  Forall (fun v => exists z, to_int64 (field_of "code" v) = Ok z) items ->
  astype_column "code"
    {| columns := station_columns; rows := map station_record items |} =
  Ok {| columns := station_columns;
        rows := map (fun v => set_nth 3 (as_int64 (field_of "code" v))
                                      (station_record v)) items |}.
Proof.
  intros C. unfold astype_column. cbn [columns]. rewrite index_of_code.
  rewrite column_of_stations.
  rewrite (astype_int64_all (map (field_of "code") items))
    by (rewrite Forall_map; exact C).
  cbn [rows]. rewrite map_map, set_column_map. reflexivity.
Qed.

(** Runs the statements of a method on an explicit state. *)
Ltac run_method :=
  lazy beta iota zeta delta [bind print lift get_world set_world get_self
                             assign set_self self outside].





(** ** Steps that fail change nothing *)

Ltac all_or_nothing_by_cases :=
  let st := fresh "st" in
  let e := fresh "e" in
  let st' := fresh "st'" in
  let H := fresh "H" in
  intros st e st';
  unfold_methods;
  unfold requests_request, response_json, assign, print, lift, bind,
    get_world, set_world, get_self, set_self, raise, ret;
  cbv beta iota zeta;
  repeat (match goal with
          | |- context [match ?x with _ => _ end] =>
              lazymatch x with
              | context [match _ with _ => _ end] => fail
              | _ => destruct x; cbv beta iota zeta
              end
          end);
  intros H; inversion H; reflexivity.

(** X6. Each of [get_token], [create_price_list], [create_station_list]
    and [build_working_df] assigns its attribute as its last statement:
    when one of them raises, whatever the exception, every attribute of
    the object is what it was before the call. *)
Theorem steps_are_all_or_nothing :
  all_or_nothing get_token /\
  all_or_nothing create_price_list /\
  all_or_nothing create_station_list /\
  all_or_nothing build_working_df.
Proof. repeat split; all_or_nothing_by_cases. Qed.

Lemma steps_are_all_or_nothing_witness :
  self (snd (build_working_df (fresh "Basic abc" true (world_of [] unreachable))))
  = init "Basic abc" true.
Proof.
  destruct steps_are_all_or_nothing as [_ [_ [_ H]]].
  apply (H (fresh "Basic abc" true (world_of [] unreachable)) TypeError).
  reflexivity.
Defined.

(** ** The price table *)

Lemma mem_string_In s l : mem_string s l = true <-> In s l.
Proof.
  unfold mem_string. rewrite existsb_exists. split.
  - intros [x [I E]]. apply String.eqb_eq in E. subst x. exact I.
  - intros I. exists s. split; [exact I | apply String.eqb_refl].
Qed.

Lemma union_keys_In k ks : forall seen,
  In k (union_keys seen ks) <-> In k seen \/ In k ks.
Proof.
  induction ks as [ | x ks IH]; intros seen; cbn; [tauto | ].
  destruct (mem_string x seen) eqn:E; rewrite IH.
  - apply mem_string_In in E. intuition (subst; auto).
  - rewrite in_app_iff. cbn. intuition (subst; auto).
Qed.

Lemma union_keys_NoDup ks : forall seen,
  NoDup seen -> NoDup (union_keys seen ks).
Proof.
  induction ks as [ | x ks IH]; intros seen N; cbn; [exact N | ].
  destruct (mem_string x seen) eqn:E; apply IH; [exact N | ].
  apply NoDup_app; [exact N | repeat constructor; intros [] | ].
  intros y Hy [<- | []]. apply mem_string_In in Hy. congruence.
Qed.

Lemma fold_union_In k items : forall seen,
  In k (fold_left (fun acc v => union_keys acc (map fst (members_of v)))
                  items seen) <->
  In k seen \/ exists v, In v items /\ In k (map fst (members_of v)).
Proof.
  induction items as [ | v items IH]; intros seen; cbn.
  - split; [tauto | intros [H | [v [[] _]]]; exact H].
  - rewrite IH, union_keys_In. split.
    + intros [[H | H] | [v' [I K]]]; eauto.
    + intros [H | [v' [[<- | I] K]]]; eauto.
Qed.

Lemma fold_union_NoDup items : forall seen,
  NoDup seen ->
  NoDup (fold_left (fun acc v => union_keys acc (map fst (members_of v)))
                   items seen).
Proof.
  induction items as [ | v items IH]; intros seen N; cbn; [exact N | ].
  apply IH, union_keys_NoDup, N.
Qed.

Lemma index_of_In k names :
  In k names -> exists j, index_of k names = Some j.
Proof.
  induction names as [ | n names IH]; cbn; [intros [] | ].
  destruct (String.eqb_spec k n) as [-> | N]; [eexists; reflexivity | ].
  intros [E | I]; [congruence | ].
  destruct (IH I) as [j ->]. eexists. reflexivity.
Qed.

Lemma cell_of_mapped (f : string -> json) k names j :
  index_of k names = Some j -> cell j (map f names) = f k.
Proof.
  unfold cell. revert j. induction names as [ | n names IH]; cbn; intros j;
    [discriminate | ].
  destruct (String.eqb_spec k n) as [-> | N].
  - intros H. injection H as <-. reflexivity.
  - destruct (index_of k names) as [i | ]; [ | discriminate].
    intros H. injection H as <-. cbn. apply IH. reflexivity.
Qed.



(** ** The rows and the failures of the join *)

Lemma merge_right_columns s p w :
  merge_right s p "code" "stationcode" = Ok w ->
  columns w = map (suffixed "_x" (columns p)) (columns s) ++
              map (suffixed "_y" (columns s)) (columns p).
Proof.
  unfold merge_right.
  destruct (key_index "code" (columns s)); [ | discriminate].
  destruct (key_index "stationcode" (columns p)); [ | discriminate].
  intros H. injection H as <-. reflexivity.
Qed.

Lemma In_join_row {L R O : Type} (matches : L -> R -> bool)
  (paired : L -> R -> O) (unpaired : R -> O) left r x :
  In x (join_row matches paired unpaired left r) <->
  (exists l, In l (filter (fun l => matches l r) left) /\ x = paired l r) \/
  (filter (fun l => matches l r) left = [] /\ x = unpaired r).
Proof.
  unfold join_row. destruct (filter (fun l => matches l r) left) as [ | m ms].
  - cbn. split.
    + intros [<- | []]. right. split; reflexivity.
    + intros [[l [[] _]] | [_ ->]]. left. reflexivity.
  - rewrite in_map_iff. split.
    + intros [l [<- I]]. left. exists l. split; [exact I | reflexivity].
    + intros [[l [I ->]] | [E _]]; [ | discriminate E].
      exists l. split; [reflexivity | exact I].
Qed.



(** X9. The join needs both frames and the key of the prices. On an
    object whose [stations_df] or [prices_df] is still [None],
    [build_working_df] raises [TypeError]; with a station frame of the
    nine labels and a price frame without the label ['stationcode'] it
    raises [KeyError], which is what happens after [create_price_list]
    on an empty list of prices, whose frame has no column at all. In
    both cases [working_df] is not assigned. *)
Theorem build_working_df_failures :
  (forall st,
     stations_df (self st) <> Absent -> prices_df (self st) <> Absent ->
     stations_df (self st) = IsNone \/ prices_df (self st) = IsNone ->
     fst (build_working_df st) = Raise TypeError /\
     self (snd (build_working_df st)) = self st) /\
  (forall st s p,
     stations_df (self st) = Frame s -> columns s = station_columns ->
     prices_df (self st) = Frame p ->
     index_of "stationcode" (columns p) = None ->
     fst (build_working_df st) = Raise KeyError /\
     self (snd (build_working_df st)) = self st) /\
  (forall st,
     subscript (raw_response (self st)) "prices" = Ok (JArr []) ->
     prices_df (self (snd (create_price_list st))) =
       Frame {| columns := []; rows := [] |}).
Proof.
  split; [ | split].
  - intros st Ns Np H. unfold build_working_df.
    unfold bind, print, lift, get_world, set_world, get_self, assign, set_self.
    cbn.
    destruct (stations_df (self st)) as [ | | s]; [contradiction | | ];
      destruct (prices_df (self st)) as [ | | p]; try contradiction; cbn;
      try (split; reflexivity).
    destruct H; discriminate.
  - intros st s p Es Cs Ep K. unfold build_working_df.
    unfold bind, print, lift, get_world, set_world, get_self, assign, set_self.
    cbn. rewrite Es, Ep. cbn. unfold merge_right, key_index.
    rewrite Cs, K. cbn. split; reflexivity.
  - intros st P. unfold create_price_list.
    unfold bind, print, lift, get_world, set_world, get_self, assign, set_self.
    cbn. rewrite P. reflexivity.
Qed.

Lemma build_working_df_failures_witness :
  fst (build_working_df (fresh "Basic abc" true (world_of [] unreachable))) =
    Raise TypeError /\
  fst (build_working_df
         (tabulated (JObj [("stations", JArr [demo_station (JStr "17") "Alpha"]);
                           ("prices", JArr [])]))) = Raise KeyError.
Proof.
  destruct build_working_df_failures as [T [K _]]. split.
  - apply T; [discriminate | discriminate | left; reflexivity].
  - eapply K; reflexivity.
Defined.

(** ** Snapshots that are written in part, or twice *)

Lemma export_succeeds_witness :
  fst (export (joined demo_feed)) = Ok tt.
Proof.
  apply (export_succeeds (joined demo_feed)
           {| columns := station_columns;
              rows := [[JStr "1-GFYV-6"; JStr "1-GPPT-110"; JStr "BP"; JInt 17;
                        JStr "Alpha"; JStr "12 Mill Rd"; JInt (-33); JInt 151;
                        JStr "NSW"];
                       [JStr "1-GFYV-6"; JStr "1-GPPT-110"; JStr "BP"; JInt 18;
                        JStr "Beta"; JStr "12 Mill Rd"; JInt (-33); JInt 151;
                        JStr "NSW"]] |}
           {| columns := ["stationcode"; "fueltype"; "price"];
              rows := [[JInt 17; JStr "E10"; JInt 150];
                       [JInt 17; JStr "U91"; JInt 152];
                       [JInt 99; JStr "E10"; JInt 149]] |}
           (match working_df (self (joined demo_feed)) with
            | Frame w => w
            | _ => {| columns := []; rows := [] |}
            end)
           eq_refl eq_refl eq_refl).
  left. reflexivity.
Defined.

(** X11. [save_as_csv] is not atomic. On an object that has its station
    and price frames but no [working_df] yet, in a directory where the
    two names are free, it writes [stations.csv] and [prices.csv], then
    raises [AttributeError] at the third write: the two files stay,
    [combined.csv] is untouched and the completion line is not
    printed. *)
Theorem save_as_csv_without_working_df d st s p :
  stations_df (self st) = Frame s ->
  prices_df (self st) = Frame p ->
  (forall w, working_df (self st) <> Frame w) ->
  stat d (disk st) = Directory ->
  stat (d ++ ["stations.csv"]) (disk st) <> Directory ->
  stat (d ++ ["prices.csv"]) (disk st) <> Directory ->
  fst (save_as_csv d st) = Raise AttributeError /\
  stat (d ++ ["stations.csv"]) (disk (snd (save_as_csv d st))) =
    Regular (to_csv s) /\
  stat (d ++ ["prices.csv"]) (disk (snd (save_as_csv d st))) =
    Regular (to_csv p) /\
  stat (d ++ ["combined.csv"]) (disk (snd (save_as_csv d st))) =
    stat (d ++ ["combined.csv"]) (disk st) /\
  printed (snd (save_as_csv d st)) = printed st.
Proof.
  unfold disk, printed. intros Es Ep Ew D F1 F2.
  destruct (write_file_succeeds d "stations.csv" (to_csv s) _ D F1) as [es1 W1].
  pose proof (write_file_stat _ _ _ _ W1) as [_ [A1 O1]].
  destruct (write_file_succeeds d "prices.csv" (to_csv p) es1) as [es2 W2].
  { rewrite O1; [exact D | apply dir_is_not_its_file]. }
  { rewrite O1; [exact F2 | apply snapshot_paths_differ; discriminate]. }
  pose proof (write_file_stat _ _ _ _ W2) as [_ [A2 O2]].
  set (st1 := {| self := self st; outside := set_cwd es1 (outside st) |}).
  set (st2 := {| self := self st1; outside := set_cwd es2 (outside st1) |}).
  assert (E : save_as_csv d st = (Raise AttributeError, st2)).
  { unfold save_as_csv. unfold bind at 1. unfold get_self at 1.
    rewrite Es, Ep.
    rewrite (bind_Ok _ _ _ _ _ (df_to_csv_run s _ st es1 W1)).
    fold st1. change es1 with (cwd (outside st1)) in W2.
    rewrite (bind_Ok _ _ _ _ _ (df_to_csv_run p _ st1 es2 W2)).
    fold st2.
    destruct (working_df (self st)) as [ | | w] eqn:W;
      [reflexivity | reflexivity | exfalso; exact (Ew w eq_refl)]. }
  rewrite E. cbn [fst snd]. unfold st2, st1.
  cbn [outside self cwd set_cwd stdout].
  split; [reflexivity | ]. split; [ | split; [exact A2 | split; [ | reflexivity]]].
  - rewrite O2; [exact A1 | apply snapshot_paths_differ; discriminate].
  - rewrite O2, O1; [reflexivity | | ]; apply snapshot_paths_differ; discriminate.
Qed.

Lemma save_as_csv_without_working_df_witness :
  fst (save_as_csv ["data"]
         {| self := self (tabulated demo_feed);
            outside := world_of [("data", Dir [])] unreachable |}) =
    Raise AttributeError /\
  stat ["data"; "prices.csv"]
       (disk (snd (save_as_csv ["data"]
         {| self := self (tabulated demo_feed);
            outside := world_of [("data", Dir [])] unreachable |}))) =
    Regular [[""; "stationcode"; "fueltype"; "price"];
             ["0"; "17"; "E10"; "150"];
             ["1"; "17"; "U91"; "152"];
             ["2"; "99"; "E10"; "149"]].
Proof.
  destruct (save_as_csv_without_working_df ["data"]
         {| self := self (tabulated demo_feed);
            outside := world_of [("data", Dir [])] unreachable |}
         {| columns := station_columns;
            rows := [[JStr "1-GFYV-6"; JStr "1-GPPT-110"; JStr "BP"; JInt 17;
                      JStr "Alpha"; JStr "12 Mill Rd"; JInt (-33); JInt 151;
                      JStr "NSW"];
                     [JStr "1-GFYV-6"; JStr "1-GPPT-110"; JStr "BP"; JInt 18;
                      JStr "Beta"; JStr "12 Mill Rd"; JInt (-33); JInt 151;
                      JStr "NSW"]] |}
         {| columns := ["stationcode"; "fueltype"; "price"];
            rows := [[JInt 17; JStr "E10"; JInt 150];
                     [JInt 17; JStr "U91"; JInt 152];
                     [JInt 99; JStr "E10"; JInt 149]] |}
         eq_refl eq_refl) as [H1 [_ [H3 _]]];
    try discriminate; try reflexivity.
  split; [exact H1 | exact H3].
Defined.

Lemma assoc_set_same_value {A : Type} k (v : A) l :
  assoc k l = Some v -> assoc_set k v l = l.
Proof.
  induction l as [ | [k' v'] l IH]; cbn; [discriminate | ].
  destruct (String.eqb_spec k k') as [-> | N]; intros H.
  - injection H as ->. reflexivity.
  - rewrite IH by exact H. reflexivity.
Qed.

(** Writing to a file the records it holds changes nothing. *)
Lemma write_file_same doc : forall p es,
  stat p es = Regular doc -> write_file p doc es = Ok es.
Proof.
  unfold write_file.
  induction p as [ | c p IH]; intros es H; [discriminate H | ].
  destruct p as [ | c2 p2].
  - cbn. rewrite stat_single in H.
    destruct (assoc c es) as [[doc' | sub] | ] eqn:A; try discriminate H.
    injection H as ->. rewrite (assoc_set_same_value _ _ _ A). reflexivity.
  - rewrite update_cons by discriminate. rewrite stat_cons in H.
    destruct (assoc c es) as [[doc' | sub] | ] eqn:A; try discriminate H.
    rewrite (IH sub H). rewrite (assoc_set_same_value _ _ _ A). reflexivity.
Qed.

Lemma set_cwd_same w : set_cwd (cwd w) w = w.
Proof. destruct w. reflexivity. Qed.

Lemma df_to_csv_same t p st :
  stat p (disk st) = Regular (to_csv t) ->
  df_to_csv (Frame t) p st = (Ok tt, st).
Proof.
  intros H. rewrite (df_to_csv_run t p st (cwd (outside st))).
  - rewrite set_cwd_same. destruct st. reflexivity.
  - apply write_file_same. exact H.
Qed.

(** X12. A second export on the same day rewrites what is there. After
    a successful [export], a second one from the state it left returns
    as well, and leaves the working directory and the object exactly as
    the first one left them. *)
Theorem export_twice st st1 :
  export st = (Ok tt, st1) ->
  fst (export st1) = Ok tt /\
  disk (snd (export st1)) = disk st1 /\
  self (snd (export st1)) = self st1.
Proof.
  intros X.
  pose proof (proj1 (proj2 export_keeps) st) as Ck. rewrite X in Ck. cbn in Ck.
  pose proof (proj2 (proj2 export_keeps) st) as Sf. rewrite X in Sf. cbn in Sf.
  apply export_snapshot_files in X.
  destruct X as [s [p [w [Es [Ep [Ew [Fs [Fp [Fw D]]]]]]]]].
  unfold clock in Ck. rewrite <- Ck in Fs, Fp, Fw, D. rewrite <- Sf in Es, Ep, Ew.
  set (d := ["data"; backup_name (now (outside st1))]) in *.
  assert (DD : stat ["data"] (cwd (outside st1)) = Directory)
    by (apply (stat_parent ["data"] (backup_name (now (outside st1))));
        change (stat d (cwd (outside st1)) <> Nothing);
        rewrite D; discriminate).
  set (st2 := {| self := self st1;
                 outside :=
                   {| cwd := cwd (outside st1);
                      stdout := stdout (outside st1) ++
                        ["Step 6/6 : Saving Price and Station data as csv file... "];
                      now := now (outside st1);
                      server := server (outside st1);
                      sent := sent (outside st1) |} |}).
  assert (E : export st1 =
              (Ok tt, snd (print "   - Export Completed." st2))).
  { unfold export.
    rewrite (bind_Ok _ _ _ _ _ (print_spec _ st1)). fold st2.
    unfold bind at 1. unfold get_world at 1.
    change (now (outside st2)) with (now (outside st1)). fold d.
    unfold bind at 1. unfold path_exists at 1, bind at 1, get_world at 1, ret.
    rewrite os_path_exists_stat.
    change (cwd (outside st2)) with (cwd (outside st1)). rewrite DD. cbn [negb].
    unfold check_folder.
    unfold bind at 1. unfold path_exists at 1, bind at 1, get_world at 1, ret.
    rewrite os_path_exists_stat.
    change (cwd (outside st2)) with (cwd (outside st1)). rewrite D. cbn [negb].
    unfold save_as_csv. unfold bind at 1. unfold get_self at 1.
    change (self st2) with (self st1). rewrite Es, Ep, Ew.
    rewrite (bind_Ok _ _ _ _ _ (df_to_csv_same s _ st2 Fs)).
    rewrite (bind_Ok _ _ _ _ _ (df_to_csv_same p _ st2 Fp)).
    rewrite (bind_Ok _ _ _ _ _ (df_to_csv_same w _ st2 Fw)).
    rewrite print_spec. reflexivity. }
  rewrite E. repeat split.
Qed.

Lemma export_twice_witness :
  fst (export (snd (export (joined demo_feed)))) = Ok tt /\
  disk (snd (export (snd (export (joined demo_feed))))) =
    disk (snd (export (joined demo_feed))).
Proof.
  destruct (export_twice (joined demo_feed) (snd (export (joined demo_feed)))
              (returns_Ok export (joined demo_feed) tt eq_refl))
    as [H1 [H2 _]].
  split; [exact H1 | exact H2].
Defined.

(** The directory [os.mkdir] makes is empty. *)
Lemma os_mkdir_listdir : forall p es es',
  os_mkdir p es = Ok es' -> os_listdir p es' = Ok [].
Proof.
  unfold os_mkdir, os_listdir.
  induction p as [ | c p IH]; intros es es' H; [discriminate H | ].
  destruct p as [ | c2 p2].
  - cbn in H. destruct (assoc c es); [discriminate H | ].
    injection H as <-. cbn. rewrite assoc_set_same. reflexivity.
  - rewrite update_cons in H by discriminate.
    destruct (assoc c es) as [[doc | sub] | ]; try discriminate H.
    destruct (update (c2 :: p2) _ sub) as [new | e] eqn:U; [ | discriminate H].
    injection H as <-. cbn [resolve]. rewrite assoc_set_same.
    apply (IH sub new U).
Qed.

(** X13. A failed export leaves its directories behind. On an object
    whose [stations_df] is still [None], with no ['data'] in the working
    directory, [export] creates ['data'] and the dated directory, then
    raises [AttributeError] in [save_as_csv]: the two directories stay,
    the dated one empty, and nothing else in the working directory
    changes. *)
Theorem export_leaves_empty_directories st :
  stations_df (self st) = IsNone ->
  stat ["data"] (disk st) = Nothing ->
  let d := ["data"; backup_name (clock st)] in
  fst (export st) = Raise AttributeError /\
  stat ["data"] (disk (snd (export st))) = Directory /\
  os_listdir d (disk (snd (export st))) = Ok [] /\
  forall q, q <> ["data"] -> q <> d ->
            stat q (disk (snd (export st))) = stat q (disk st).
Proof.
  intros N A d. unfold disk, clock in *.
  destruct (os_mkdir_succeeds [] "data" _ (stat_nil _) A) as [es1 M1].
  cbn [app] in M1.
  pose proof (os_mkdir_stat _ _ _ M1) as [_ [D1 O1]].
  assert (A2 : stat d es1 = Nothing).
  { unfold d. rewrite O1 by discriminate.
    apply (stat_below_nothing ["data"]). exact A. }
  destruct (os_mkdir_succeeds ["data"] (backup_name (now (outside st))) es1 D1 A2)
    as [es2 M2].
  cbn [app] in M2. fold d in M2.
  pose proof (os_mkdir_stat _ _ _ M2) as [_ [D2 O2]].
  set (st0 := {| self := self st;
                 outside :=
                   {| cwd := cwd (outside st);
                      stdout := stdout (outside st) ++
                        ["Step 6/6 : Saving Price and Station data as csv file... "];
                      now := now (outside st);
                      server := server (outside st);
                      sent := sent (outside st) |} |}).
  set (st1 := {| self := self st0; outside := set_cwd es1 (outside st0) |}).
  set (st2 := {| self := self st1; outside := set_cwd es2 (outside st1) |}).
  assert (E : export st = (Raise AttributeError, st2)).
  { unfold export.
    rewrite (bind_Ok _ _ _ _ _ (print_spec _ st)). fold st0.
    unfold bind at 1. unfold get_world at 1.
    change (now (outside st0)) with (now (outside st)). fold d.
    unfold bind at 1. unfold path_exists at 1, bind at 1, get_world at 1, ret.
    rewrite os_path_exists_stat.
    change (cwd (outside st0)) with (cwd (outside st)). rewrite A. cbn [negb].
    change (cwd (outside st)) with (cwd (outside st0)) in M1.
    rewrite (bind_Ok _ _ _ _ _ (mkdir_run _ st0 es1 M1)). fold st1.
    unfold check_folder.
    unfold bind at 1. unfold path_exists at 1, bind at 1, get_world at 1, ret.
    rewrite os_path_exists_stat.
    change (cwd (outside st1)) with es1. rewrite A2. cbn [negb].
    change es1 with (cwd (outside st1)) in M2.
    rewrite (bind_Ok _ _ _ _ _ (mkdir_run _ st1 es2 M2)). fold st2.
    unfold save_as_csv. unfold bind at 1. unfold get_self at 1.
    change (self st2) with (self st). rewrite N. reflexivity. }
  rewrite E. cbn [fst snd]. unfold st2, st1, st0.
  cbn [outside self cwd set_cwd].
  split; [reflexivity | ]. split; [ | split].
  - rewrite O2 by (unfold d; discriminate). exact D1.
  - apply (os_mkdir_listdir d es1 es2 M2).
  - intros q Q1 Q2. rewrite O2, O1; [reflexivity | exact Q1 | exact Q2].
Qed.

Lemma export_leaves_empty_directories_witness :
  fst (export (fresh "Basic abc" true (world_of [] unreachable))) =
    Raise AttributeError /\
  disk (snd (export (fresh "Basic abc" true (world_of [] unreachable)))) =
    [("data", Dir [("backup_20240131", Dir [])])].
Proof.
  destruct (export_leaves_empty_directories
              (fresh "Basic abc" true (world_of [] unreachable))
              eq_refl eq_refl) as [H _].
  split; [exact H | reflexivity].
Defined.

(** ** Reloading from a directory that is not a snapshot *)

Lemma greatest_is_first names latest :
  In latest names ->
  (forall n, In n names -> String.leb n latest = true) ->
  exists rest, sorted_reverse names = latest :: rest.
Proof.
  intros I G.
  assert (NE : names <> []) by (intros ->; exact I).
  destruct (sorted_reverse_first names NE) as [first [rest [S [I' G']]]].
  exists rest. rewrite S. f_equal.
  apply String.leb_antisym; [apply G; exact I' | apply G'; exact I].
Qed.

(** X14. [read_record] does not check what it picks. When the greatest
    entry of ['data'] is a regular file, a stray file named after the
    snapshots for instance, it raises [NotADirectoryError] and loads
    nothing, whatever snapshots lie beside it. *)
Theorem read_record_stray_file infer st names latest doc :
  os_listdir ["data"] (disk st) = Ok names ->
  In latest names ->
  (forall n, In n names -> String.leb n latest = true) ->
  stat ["data"; latest] (disk st) = Regular doc ->
  fst (read_record infer st) = Raise NotADirectoryError /\
  self (snd (read_record infer st)) = self st.
Proof.
  unfold disk. intros L I G F.
  destruct (greatest_is_first names latest I G) as [rest S].
  assert (R : load_csv infer ["data"; latest; "prices.csv"] (cwd (outside st))
              = Raise NotADirectoryError).
  { unfold load_csv, read_file. unfold stat in F. cbn [resolve] in F |- *.
    destruct (assoc "data" (cwd (outside st))) as [[doc0 | sub] | ];
      try discriminate F.
    destruct (assoc latest sub) as [[doc1 | sub1] | ]; try discriminate F.
    reflexivity. }
  unfold read_record. unfold_monad. rewrite L. cbn. rewrite S. cbn.
  rewrite R. split; reflexivity.
Qed.

Lemma read_record_stray_file_witness :
  fst (read_record infer_plain
         (fresh "Basic abc" false
            (world_of [("data", Dir [("backup_20240131", tiny_snapshot "3");
                                     ("backup_notes.txt", File [["todo"]])])]
                      unreachable))) = Raise NotADirectoryError.
Proof.
  destruct (read_record_stray_file infer_plain
         (fresh "Basic abc" false
            (world_of [("data", Dir [("backup_20240131", tiny_snapshot "3");
                                     ("backup_notes.txt", File [["todo"]])])]
                      unreachable))
         ["backup_20240131"; "backup_notes.txt"] "backup_notes.txt" [["todo"]]
         eq_refl) as [H _].
  - cbn. tauto.
  - intros n [<- | [<- | []]]; reflexivity.
  - reflexivity.
  - exact H.
Defined.

(** X15. [read_record] is not atomic either. When [prices.csv] of the
    greatest entry loads and [stations.csv] does not, the method raises
    the exception of the second load with [prices_df] already replaced:
    the object is left with the prices of the snapshot beside the
    stations and the combined table it had before. *)
Theorem read_record_partial_load infer st names latest tp e :
  os_listdir ["data"] (disk st) = Ok names ->
  In latest names ->
  (forall n, In n names -> String.leb n latest = true) ->
  load_csv infer ["data"; latest; "prices.csv"] (disk st) = Ok tp ->
  load_csv infer ["data"; latest; "stations.csv"] (disk st) = Raise e ->
  fst (read_record infer st) = Raise e /\
  self (snd (read_record infer st)) = set_prices_df (Frame tp) (self st).
Proof.
  unfold disk. intros L I G P S.
  destruct (greatest_is_first names latest I G) as [rest R].
  unfold read_record. unfold_monad. rewrite L. cbn. rewrite R. cbn.
  rewrite P. cbn. rewrite S. split; reflexivity.
Qed.

Lemma read_record_partial_load_witness :
  fst (read_record infer_plain
         (fresh "Basic abc" false
            (world_of [("data", Dir [("backup_20240131",
                                      Dir [("prices.csv",
                                            File [[""; "stationcode"]; ["0"; "17"]])])])]
                      unreachable))) = Raise FileNotFoundError /\
  slot_nrows (prices_df (self (snd (read_record infer_plain
         (fresh "Basic abc" false
            (world_of [("data", Dir [("backup_20240131",
                                      Dir [("prices.csv",
                                            File [[""; "stationcode"]; ["0"; "17"]])])])]
                      unreachable)))))) = Some 1.
Proof.
  destruct (read_record_partial_load infer_plain
         (fresh "Basic abc" false
            (world_of [("data", Dir [("backup_20240131",
                                      Dir [("prices.csv",
                                            File [[""; "stationcode"]; ["0"; "17"]])])])]
                      unreachable))
         ["backup_20240131"] "backup_20240131"
         {| columns := ["Unnamed: 0"; "stationcode"];
            rows := [[JInt 0; JInt 17]] |}
         FileNotFoundError eq_refl) as [H1 H2].
  - left. reflexivity.
  - intros n [<- | []]. reflexivity.
  - reflexivity.
  - reflexivity.
  - split; [exact H1 | ]. rewrite H2. reflexivity.
Defined.

(** ** A complete update run *)

Lemma steps_keep_clock k :
  keeps clock get_token /\ keeps clock (update_data k) /\
  keeps clock create_price_list /\ keeps clock create_station_list /\
  keeps clock build_working_df.
Proof. repeat split; keeps_by_steps. Qed.

Lemma kept {B A : Type} (f : state -> B) (m : M A) st a st' :
  keeps f m -> m st = (Ok a, st') -> f st' = f st.
Proof. intros K E. specialize (K st). rewrite E in K. exact K. Qed.

Lemma create_price_list_spec st st' :
  create_price_list st = (Ok tt, st') ->
  exists t, self st' = set_prices_df (Frame t) (self st).
Proof.
  unfold create_price_list. intros H.
  step_print H.
  step H o Ho. injection Ho as <- <-.
  step_lift H prices Hprices.
  step_lift H df Hdf.
  unfold assign, bind, get_self, set_self in H. cbn in H.
  injection H as <-. exists df. reflexivity.
Qed.



Lemma reload_after_export_differs_witness :
  exists s ts,
    stations_df (self (joined demo_feed)) = Frame s /\
    stations_df (self (snd (read_record infer_plain
                              {| self := init "Basic abc" false;
                                 outside := outside (snd (export (joined demo_feed))) |})))
      = Frame ts /\
    List.length (columns ts) = S (List.length (columns s)).
Proof.
  destruct (reload_after_export_differs infer_plain
              (joined demo_feed) (snd (export (joined demo_feed)))
              (init "Basic abc" false)
              (snd (read_record infer_plain
                      {| self := init "Basic abc" false;
                         outside := outside (snd (export (joined demo_feed))) |}))
              ["backup_20240131"]
              (returns_Ok export (joined demo_feed) tt eq_refl)
              eq_refl)
    as [s [p [w [ts [tp [tw [H1 [H2 [_ [_ [_ [_ [H3 _]]]]]]]]]]]]].
  - intros n [<- | []]. reflexivity.
  - apply (returns_Ok (read_record infer_plain)). reflexivity.
  - exists s, ts. split; [exact H1 | split; [exact H2 | exact H3]].
Defined.
